(** * Rogers-AI-Schema Tier 1, VAST Data Platform implementation

    A shallow embedding of [platforms/vast_schema.py]: the PyArrow schema of
    the [ai_documents] table, the application-layer validators, the enum
    registry and the example-record builder, followed by the properties the
    design note states about them.

    Conventions of the embedding.
    - A Python [int] is a [Z]; a Python [float] is an IEEE-754 value
      ([spec_float]); comparisons between numbers are the exact ones Python
      performs, with NaN unordered.
    - A Python [str] is a [string]; a [dict] literal is an insertion-ordered
      association list.
    - A raised exception is the [Raise] branch of [Result].
    - The wall clock and the operating system's random source are an
      explicit [World] threaded through the impure functions. *)

From Stdlib Require Import ZArith List String Ascii Bool Lia.
From Stdlib Require Import QArith Qpower.
From Stdlib Require Import Floats.SpecFloat.
From Stdlib Require Import Strings.Byte.
From Stdlib Require Import DecimalString.
Import ListNotations.

Local Open Scope string_scope.
Local Open Scope Z_scope.

(* ================================================================== *)
(** * Python run-time values *)
(* ================================================================== *)

Module Py.

(** Exceptions the module raises.  Both validators raise [ValueError];
    [OverflowError] comes from PyArrow, when an integer does not fit the C
    type of an argument. *)
Inductive Exn : Type :=
| ValueError (msg : string)
| OverflowError (msg : string).

(** Outcome of a call: a returned value or a raised exception. *)
Inductive Result (A : Type) : Type :=
| Return (a : A)
| Raise (e : Exn).
Arguments Return {A} a.
Arguments Raise {A} e.

Definition bind {A B : Type} (r : Result A) (k : A -> Result B) : Result B :=
  match r with
  | Return a => k a
  | Raise e => Raise e
  end.

(** A Python number: [int] or [float]. *)
Inductive Num : Type :=
| Int (z : Z)
| Float (f : spec_float).

(** The point of the extended real line a number denotes. *)
Inductive Ext : Type :=
| NaN
| NegInf
| PosInf
| Fin (q : Q).

Definition float_value (f : spec_float) : Ext :=
  match f with
  | S754_zero _ => Fin 0%Q
  | S754_infinity s => if s then NegInf else PosInf
  | S754_nan => NaN
  | S754_finite s m e =>
      Fin (inject_Z (if s then Z.neg m else Z.pos m) * Qpower 2 e)%Q
  end.

Definition value (x : Num) : Ext :=
  match x with
  | Int z => Fin (inject_Z z)
  | Float f => float_value f
  end.

(** [a < b] on numbers: exact on finite values, false as soon as one side
    is NaN. *)
Definition lt (a b : Num) : bool :=
  match value a, value b with
  | NaN, _ | _, NaN => false
  | NegInf, NegInf => false
  | NegInf, _ => true
  | _, NegInf => false
  | PosInf, _ => false
  | Fin _, PosInf => true
  | Fin p, Fin q => match Qcompare p q with Lt => true | _ => false end
  end.

(** [a > b] is [b < a]. *)
Definition gt (a b : Num) : bool := lt b a.

(** Values stored in a record ([Dict[str, Any]]). *)
Inductive Val : Type :=
| VNone
| VBool (b : bool)
| VInt (z : Z)
| VStr (s : string)
| VList (l : list Num)
| VDateTime (us : Z).

(** Truth value of an optional list: [None] and [[]] are falsy. *)
Definition truthy {A : Type} (v : option (list A)) : bool :=
  match v with
  | Some (_ :: _) => true
  | _ => false
  end.

(** [x in xs] for a list of strings. *)
Definition str_in (x : string) (xs : list string) : bool :=
  existsb (String.eqb x) xs.

(** ** Dictionaries *)

Definition Dict : Type := list (string * Val).

Fixpoint setitem (d : Dict) (k : string) (v : Val) : Dict :=
  match d with
  | [] => [(k, v)]
  | (k', v') :: d' =>
      if String.eqb k k' then (k', v) :: d' else (k', v') :: setitem d' k v
  end.

(** A dict display [{k1: v1, ..., kn: vn}] stores its items left to
    right. *)
Definition dict (items : list (string * Val)) : Dict :=
  fold_left (fun d kv => setitem d (fst kv) (snd kv)) items [].

Fixpoint get (d : Dict) (k : string) : option Val :=
  match d with
  | [] => None
  | (k', v) :: d' => if String.eqb k k' then Some v else get d' k
  end.

Definition keys (d : Dict) : list string := map fst d.

(** ** Text of values, as used by f-strings *)

Definition hex_char (d : Z) : ascii :=
  if d <? 10 then ascii_of_nat (Z.to_nat (48 + d))
  else ascii_of_nat (Z.to_nat (87 + d)).

Definition code (c : ascii) : Z := Z.of_nat (nat_of_ascii c).

Definition squote : ascii := "039"%char.
Definition dquote : ascii := "034"%char.
Definition backslash : ascii := "092"%char.

(** One character inside [repr] of a string delimited by [quote]. *)
Definition repr_char (quote c : ascii) : string :=
  let n := code c in
  if orb (Ascii.eqb c quote) (Ascii.eqb c backslash) then
    String backslash (String c EmptyString)
  else if n =? 9 then "\t"
  else if n =? 10 then "\n"
  else if n =? 13 then "\r"
  else if orb (n <? 32) (n =? 127) then
    String backslash
      (String "x"%char
         (String (hex_char (n / 16)) (String (hex_char (n mod 16)) EmptyString)))
  else String c EmptyString.

Fixpoint has_char (c : ascii) (s : string) : bool :=
  match s with
  | EmptyString => false
  | String c' s' => orb (Ascii.eqb c c') (has_char c s')
  end.

Fixpoint repr_body (quote : ascii) (s : string) : string :=
  match s with
  | EmptyString => EmptyString
  | String c s' => repr_char quote c ++ repr_body quote s'
  end.

(** [repr(s)] of a string: single quotes, unless the text has a single
    quote and no double quote.  Bytes from 128 up stand for the UTF-8
    encoding of printable characters and are kept; a character above
    U+007F that Python does not count as printable (U+00A0, say) is
    escaped by Python and is not rendered here as Python renders it. *)
Definition repr_str (s : string) : string :=
  let quote :=
    if andb (has_char squote s) (negb (has_char dquote s))
    then dquote else squote in
  String quote (repr_body quote s ++ String quote EmptyString).

Fixpoint join (sep : string) (l : list string) : string :=
  match l with
  | [] => EmptyString
  | [x] => x
  | x :: l' => x ++ sep ++ join sep l'
  end.

(** [str(l)] of a list of strings. *)
Definition str_list (l : list string) : string :=
  "[" ++ join ", " (map repr_str l) ++ "]".

(** [str(z)] of an int.  CPython from 3.11 on refuses to render an int of
    more than 4300 digits; the text given here for such an int is not one
    the interpreter produces. *)
Definition str_int (z : Z) : string := NilZero.string_of_int (Z.to_int z).

End Py.

Export Py.

(* ================================================================== *)
(** * The part of PyArrow the module uses *)
(* ================================================================== *)

Module pa.

Inductive TimeUnit : Type := unit_s | unit_ms | unit_us | unit_ns.

(** Arrow data types and fields.  A list type owns the field of its
    elements. *)
Inductive DataType : Type :=
| int32
| int64
| float32
| float64
| bool_
| string
| timestamp (unit : TimeUnit) (tz : option String.string)
| ListType (value_field : Field)
| FixedSizeListType (value_field : Field) (list_size : Z)
with Field : Type :=
| mkField (name : String.string) (type : DataType) (nullable : bool).

Definition name (f : Field) : String.string :=
  match f with mkField n _ _ => n end.
Definition type (f : Field) : DataType :=
  match f with mkField _ t _ => t end.
Definition nullable (f : Field) : bool :=
  match f with mkField _ _ b => b end.

(** [pa.field(name, type)]: [nullable] defaults to [True]. *)
Definition field (n : String.string) (t : DataType) : Field := mkField n t true.

(** [pa.field(name=..., type=..., nullable=...)]. *)
Definition field_with (n : String.string) (t : DataType) (b : bool) : Field :=
  mkField n t b.

(** The largest and smallest C [int]. *)
Definition INT_MAX : Z := 2 ^ 31 - 1.
Definition INT_MIN : Z := - 2 ^ 31.

(** A Python integer passed where PyArrow declares a C [int]: it has to
    fit a C [long] first (64 bits), then the [int]. *)
Definition as_c_int (z : Z) : Result Z :=
  if (z <? - 2 ^ 63) || (2 ^ 63 - 1 <? z) then
    Raise (OverflowError "Python int too large to convert to C long")
  else if (z <? INT_MIN) || (INT_MAX <? z) then
    Raise (OverflowError "value too large to convert to int")
  else Return z.

(** [pa.list_(value_field, list_size)], where [list_size] is declared a C
    [int]: size [-1] asks for a variable-length list, any other negative
    size is refused, and a size from 0 up gives a fixed-size list. *)
Definition list_ (value_field : Field) (list_size : Z) : Result DataType :=
  Py.bind (as_c_int list_size)
    (fun n =>
       if n =? -1 then Return (ListType value_field)
       else if n <? 0 then
         Raise (ValueError "list_size should be a positive integer")
       else Return (FixedSizeListType value_field n)).

(** A schema is the ordered list of its fields. *)
Definition Schema : Type := list Field.

Definition schema (fields : list Field) : Schema := fields.

Definition names (s : Schema) : list String.string := map name s.

Definition unit_eqb (a b : TimeUnit) : bool :=
  match a, b with
  | unit_s, unit_s | unit_ms, unit_ms | unit_us, unit_us | unit_ns, unit_ns => true
  | _, _ => false
  end.

Definition tz_eqb (a b : option String.string) : bool :=
  match a, b with
  | None, None => true
  | Some x, Some y => String.eqb x y
  | _, _ => false
  end.

(** Equality of types and of fields, as [DataType.equals] and
    [Field.equals] decide it: name, type and nullability. *)
Fixpoint type_equals (a b : DataType) : bool :=
  match a, b with
  | int32, int32 | int64, int64 | float32, float32 | float64, float64 => true
  | bool_, bool_ | string, string => true
  | timestamp u1 z1, timestamp u2 z2 => unit_eqb u1 u2 && tz_eqb z1 z2
  | ListType f1, ListType f2 => field_equals f1 f2
  | FixedSizeListType f1 n1, FixedSizeListType f2 n2 =>
      field_equals f1 f2 && (n1 =? n2)
  | _, _ => false
  end
with field_equals (f g : Field) : bool :=
  match f, g with
  | mkField n1 t1 b1, mkField n2 t2 b2 =>
      String.eqb n1 n2 && type_equals t1 t2 && Bool.eqb b1 b2
  end.

(** [Schema.equals]: same length, fields equal position by position. *)
Fixpoint schema_equals (s1 s2 : Schema) : bool :=
  match s1, s2 with
  | [], [] => true
  | f :: s1', g :: s2' => field_equals f g && schema_equals s1' s2'
  | _, _ => false
  end.

(** The size of a fixed-size list type. *)
Definition list_size (t : DataType) : option Z :=
  match t with
  | FixedSizeListType _ n => Some n
  | _ => None
  end.

End pa.

Notation "x <- c1 ;; c2" := (Py.bind c1 (fun x => c2))
  (at level 61, c1 at next level, right associativity).

(* ================================================================== *)
(** * The outside world: clock and random source *)
(* ================================================================== *)

Module Sys.

(** The [n]-th reading of the UTC clock, in microseconds since the epoch,
    and the [n]-th byte the kernel's random source delivers, with the
    number of readings and bytes consumed so far. *)
Record World : Type := mkWorld {
  clock : nat -> Z;
  clock_reads : nat;
  random : nat -> Byte.byte;
  random_used : nat
}.

(** A computation that may consult the world. *)
Definition IO (A : Type) : Type := World -> A * World.

Definition ret {A : Type} (a : A) : IO A := fun w => (a, w).

Definition bind {A B : Type} (c : IO A) (k : A -> IO B) : IO B :=
  fun w => let (a, w') := c w in k a w'.

(** [datetime.now(timezone.utc)]. *)
Definition datetime_now_utc : IO Z :=
  fun w =>
    (clock w (clock_reads w),
     mkWorld (clock w) (S (clock_reads w)) (random w) (random_used w)).

(** [os.urandom(n)]. *)
Definition urandom (n : nat) : IO (list Byte.byte) :=
  fun w =>
    (map (random w) (seq (random_used w) n),
     mkWorld (clock w) (clock_reads w) (random w) (random_used w + n)).

End Sys.

Notation "x <~ c1 ;; c2" := (Sys.bind c1 (fun x => c2))
  (at level 61, c1 at next level, right associativity).

(* ================================================================== *)
(** * The part of the [uuid] module the helpers use *)
(* ================================================================== *)

Module uuid.

(** [int.from_bytes(bs, 'big')]. *)
Definition int_from_bytes (bs : list Byte.byte) : Z :=
  fold_left (fun acc b => acc * 256 + Z.of_N (Byte.to_N b)) bs 0.

(** A UUID object holds its 128-bit integer. *)
Record UUID : Type := mkUUID { int : Z }.

(** [UUID(bytes=bs, version=v)]: the variant bits are set to RFC 4122 and
    the version nibble to [v]. *)
Definition UUID_of_bytes (bs : list Byte.byte) (version : Z) : UUID :=
  let i := int_from_bytes bs in
  let i := Z.land i (Z.lnot (Z.shiftl 0xc000 48)) in
  let i := Z.lor i (Z.shiftl 0x8000 48) in
  let i := Z.land i (Z.lnot (Z.shiftl 0xf000 64)) in
  let i := Z.lor i (Z.shiftl version 76) in
  mkUUID i.

(** [uuid.uuid4()]. *)
Definition uuid4 : Sys.IO UUID :=
  bs <~ Sys.urandom 16 ;;
  Sys.ret (UUID_of_bytes bs 4).

(** The hexadecimal digits of [n >= 0], most significant first, pushed in
    front of [acc]. *)
Fixpoint hex_digits (fuel : nat) (n : Z) (acc : list ascii) : list ascii :=
  match fuel with
  | O => acc
  | S fuel' =>
      let acc' := hex_char (n mod 16) :: acc in
      if n / 16 =? 0 then acc' else hex_digits fuel' (n / 16) acc'
  end.

(** ['%x' % n] for [n >= 0]. *)
Definition format_x (n : Z) : list ascii :=
  hex_digits (S (Z.to_nat (Z.log2 n))) n [].

(** ['%032x' % n] for [n >= 0]: zero-padded on the left to width 32. *)
Definition format_032x (n : Z) : list ascii :=
  let ds := format_x n in
  repeat "0"%char (32 - List.length ds) ++ ds.

(** The number a string of lower-case hexadecimal digits denotes. *)
Definition digit_value (c : ascii) : Z :=
  let n := code c in
  if n <? 58 then n - 48 else n - 87.

Definition hex_value (ds : list ascii) : Z :=
  fold_left (fun a c => a * 16 + digit_value c) ds 0.

(** [s[a:b]] for [0 <= a <= b]. *)
Definition slice {A : Type} (a b : nat) (s : list A) : list A :=
  firstn (b - a) (skipn a s).

(** [str(u)]: the digits in groups of 8, 4, 4, 4 and 12. *)
Definition str (u : UUID) : String.string :=
  let hex := format_032x (int u) in
  string_of_list_ascii
    (slice 0 8 hex ++ "-"%char :: slice 8 12 hex ++ "-"%char ::
     slice 12 16 hex ++ "-"%char :: slice 16 20 hex ++ "-"%char ::
     skipn 20 hex).

(** Lower-case hexadecimal digit. *)
Definition is_hex_digit (c : ascii) : bool :=
  let n := code c in
  ((48 <=? n) && (n <=? 57)) || ((97 <=? n) && (n <=? 102)).

Definition hyphen_position (i : nat) : bool :=
  existsb (Nat.eqb i) [8; 13; 18; 23]%nat.

(** The canonical textual form of a UUID: 36 characters, hyphens at
    offsets 8, 13, 18 and 23, lower-case hexadecimal digits elsewhere. *)
Definition canonical_format (s : String.string) : bool :=
  let cs := list_ascii_of_string s in
  (List.length cs =? 36)%nat &&
  forallb
    (fun ic =>
       if hyphen_position (fst ic) then Ascii.eqb (snd ic) "-"%char
       else is_hex_digit (snd ic))
    (combine (seq 0 (List.length cs)) cs).

End uuid.

(* ================================================================== *)
(** * Configuration *)
(* ================================================================== *)

Definition TABLE_NAME : string := "ai_documents".

Definition ROGERS_AI_SCHEMA_VERSION : string := "1.0.0-tier1".

(* ================================================================== *)
(** * PyArrow schema definition: Rogers-AI-Schema Tier 1 *)
(* ================================================================== *)

(** A vector column in the format VAST requires: a fixed-size list of
    non-nullable [float32] items named "item"; the column itself is
    nullable. *)
Definition create_vector_field (name : string) (dims : Z) : Result pa.Field :=
  vector_type <- pa.list_ (pa.field_with "item" pa.float32 false) dims ;;
  Return (pa.field name vector_type).

Definition timestamp_us_utc : pa.DataType := pa.timestamp pa.unit_us (Some "UTC").

(** [pa.field] and [pa.timestamp] never raise, so the only calls of the
    list display that can are the five [create_vector_field] ones, here in
    the order the display evaluates them. *)
Definition create_ai_documents_schema (vector_dims : Z) : Result pa.Schema :=
  vectors01 <- create_vector_field "DocumentEmbeddingVectors01" vector_dims ;;
  vectors02 <- create_vector_field "DocumentEmbeddingVectors02" vector_dims ;;
  vectors03 <- create_vector_field "DocumentEmbeddingVectors03" vector_dims ;;
  vectors04 <- create_vector_field "DocumentEmbeddingVectors04" vector_dims ;;
  vectors05 <- create_vector_field "DocumentEmbeddingVectors05" vector_dims ;;
  Return (pa.schema [
    (* Core Identity & Audit (7 fields) *)
    pa.field "vastdb_rowid" pa.int64;
    pa.field "UUID" pa.string;
    pa.field "RogersAISchemaVersion" pa.string;
    pa.field "InsertDateTime" timestamp_us_utc;
    pa.field "UpdateDateTime" timestamp_us_utc;
    pa.field "InsertUser" pa.string;
    pa.field "UpdateUser" pa.string;
    (* Source Document Metadata (7 fields) *)
    pa.field "SourceDocumentName" pa.string;
    pa.field "SourceDocumentPath" pa.string;
    pa.field "SourceDocumentHash" pa.string;
    pa.field "SourceDocumentTitle" pa.string;
    pa.field "SourceDocumentSummary" pa.string;
    pa.field "SourceDocumentAuthor" pa.string;
    pa.field "SourceDocumentOrganization" pa.string;
    (* Document Content & Chunking (2 fields) *)
    pa.field "DocumentChunkNumber" pa.int32;
    pa.field "DocumentChunkText" pa.string;
    (* Vector Embeddings - 5 Providers (15 fields) *)
    pa.field "DocumentEmbeddingModel01" pa.string;
    pa.field "DocumentEmbeddingURL01" pa.string;
    vectors01;
    pa.field "DocumentEmbeddingModel02" pa.string;
    pa.field "DocumentEmbeddingURL02" pa.string;
    vectors02;
    pa.field "DocumentEmbeddingModel03" pa.string;
    pa.field "DocumentEmbeddingURL03" pa.string;
    vectors03;
    pa.field "DocumentEmbeddingModel04" pa.string;
    pa.field "DocumentEmbeddingURL04" pa.string;
    vectors04;
    pa.field "DocumentEmbeddingModel05" pa.string;
    pa.field "DocumentEmbeddingURL05" pa.string;
    vectors05;
    (* Privacy & PII Protection (10 fields) *)
    pa.field "ContainsPII" pa.bool_;
    pa.field "PIITypes" pa.string;
    pa.field "PIIDetectionMethod" pa.string;
    pa.field "PIIDetectionDate" timestamp_us_utc;
    pa.field "SensitiveDataClassification" pa.string;
    pa.field "LegalBasisForProcessing" pa.string;
    pa.field "DataRetentionPeriod" pa.int32;
    pa.field "DeletionScheduledDate" timestamp_us_utc;
    pa.field "DeletionStatus" pa.string;
    pa.field "AnonymizationStatus" pa.string;
    (* Data Governance & Lineage (8 fields) *)
    pa.field "DatasetType" pa.string;
    pa.field "DatasetPurpose" pa.string;
    pa.field "DataQualityScore" pa.float64;
    pa.field "DataValidationStatus" pa.string;
    pa.field "DataValidationDate" timestamp_us_utc;
    pa.field "DataValidatedBy" pa.string;
    pa.field "DataLineageChain" pa.string;
    pa.field "OriginalSourceType" pa.string;
    (* Legal & Licensing Tracking (6 fields) *)
    pa.field "CopyrightStatus" pa.string;
    pa.field "LicenseType" pa.string;
    pa.field "UsageRestrictions" pa.string;
    pa.field "CommercialUseAllowed" pa.bool_;
    pa.field "AttributionRequired" pa.bool_;
    pa.field "AttributionText" pa.string;
    (* Risk Management & Content Safety (4 fields) *)
    pa.field "RiskLevel" pa.string;
    pa.field "ContentSafetyStatus" pa.string;
    pa.field "ContentSafetyScore" pa.float64;
    pa.field "ContentModerationDate" timestamp_us_utc;
    (* Access Control & Security (3 fields) *)
    pa.field "AccessControlLevel" pa.string;
    pa.field "DataClassification" pa.string;
    pa.field "AllowedRoles" pa.string;
    (* Enhanced Audit Trail (1 field) *)
    pa.field "LastModifiedReason" pa.string;
    (* Document Lifecycle Management (2 fields) *)
    pa.field "DocumentStatus" pa.string;
    pa.field "DocumentVersion" pa.string
  ]).

(** The group table [print_schema_info] prints. *)
Definition print_schema_info_groups : list (string * Z) := [
  ("Core Identity & Audit", 7);
  ("Source Document Metadata", 7);
  ("Document Content & Chunking", 2);
  ("Vector Embeddings (5 providers)", 15);
  ("Privacy & PII Protection", 10);
  ("Data Governance & Lineage", 8);
  ("Legal & Licensing Tracking", 6);
  ("Risk Management & Content Safety", 4);
  ("Access Control & Security", 3);
  ("Enhanced Audit Trail", 1);
  ("Document Lifecycle Management", 2)
].

(* ================================================================== *)
(** * Helper functions for application-layer operations *)
(* ================================================================== *)

(** A new UUID string for document identification. *)
Definition generate_uuid : Sys.IO string :=
  u <~ uuid.uuid4 ;;
  Sys.ret (uuid.str u).

(** The current UTC timestamp for insert and update times. *)
Definition get_current_timestamp : Sys.IO Z := Sys.datetime_now_utc.

Definition validate_enum_field
    (value : string) (allowed_values : list string) (field_name : string)
    : Result string :=
  if negb (str_in value allowed_values) then
    Raise (ValueError
      ("Invalid value '" ++ value ++ "' for " ++ field_name ++ ". " ++
       "Allowed values: " ++ str_list allowed_values))
  else Return value.

Section ScoreRange.

(** [repr] of a float, the shortest decimal text that reads back as the
    same float, is the interpreter's; only the error text depends on
    it. *)
Variable float_repr : spec_float -> string.

(** [str(x)] of a number. *)
Definition str_num (x : Num) : string :=
  match x with
  | Int z => str_int z
  | Float f => float_repr f
  end.

Definition validate_score_range
    (value : Num) (field_name : string) (min_val max_val : Num)
    : Result Num :=
  if Py.lt value min_val || Py.gt value max_val then
    Raise (ValueError
      ("Invalid value " ++ str_num value ++ " for " ++ field_name ++ ". " ++
       "Must be between " ++ str_num min_val ++ " and " ++ str_num max_val))
  else Return value.

(** The call with the default bounds [min_val=0], [max_val=100]. *)
Definition validate_score_range_default
    (value : Num) (field_name : string) : Result Num :=
  validate_score_range value field_name (Int 0) (Int 100).

End ScoreRange.

(* ================================================================== *)
(** * Enum value definitions (for validation) *)
(* ================================================================== *)

Definition ENUM_VALUES : list (string * list string) := [
  ("PIIDetectionMethod", ["automated"; "manual"; "both"; "not_detected"]);
  ("SensitiveDataClassification", ["None"; "Low"; "Medium"; "High"; "Critical"]);
  ("LegalBasisForProcessing",
     ["Consent"; "Contract"; "LegalObligation";
      "VitalInterests"; "PublicTask"; "LegitimateInterests"]);
  ("DeletionStatus", ["Pending"; "Scheduled"; "Deleted"; "Retained"; "AwaitingApproval"]);
  ("AnonymizationStatus", ["NotAnonymized"; "Pseudonymized"; "FullyAnonymized"]);
  ("DatasetType",
     ["Training"; "Validation"; "Testing"; "Production"; "KnowledgeBase"; "Archive"]);
  ("DataValidationStatus", ["Pending"; "Validated"; "Failed"; "NeedsReview"; "InProgress"]);
  ("OriginalSourceType",
     ["Web"; "Database"; "API"; "FileSystem"; "Manual";
      "Email"; "S3"; "SharePoint"; "Other"]);
  ("CopyrightStatus",
     ["PublicDomain"; "Copyrighted"; "CreativeCommons";
      "Unknown"; "ProprietaryInternal"]);
  ("RiskLevel", ["Low"; "Medium"; "High"; "Critical"; "Unassessed"]);
  ("ContentSafetyStatus", ["Safe"; "Flagged"; "Unsafe"; "UnderReview"; "NotAssessed"]);
  ("AccessControlLevel",
     ["Public"; "Internal"; "Confidential"; "Restricted"; "Classified"]);
  ("DocumentStatus",
     ["Draft"; "Active"; "Deprecated"; "Archived"; "Deleted"; "UnderReview"])
].

(* ================================================================== *)
(** * Example usage functions *)
(* ================================================================== *)

Definition of_optional_int (o : option Z) : Val :=
  match o with Some z => VInt z | None => VNone end.

Definition of_optional_list (o : option (list Num)) : Val :=
  match o with Some l => VList l | None => VNone end.

Definition create_example_record
    (insert_user document_name chunk_text : string)
    (embedding_vector : option (list Num))
    (vastdb_rowid : option Z)
    : Sys.IO Dict :=
  now <~ get_current_timestamp ;;
  new_uuid <~ generate_uuid ;;
  Sys.ret (dict [
    (* Core Identity & Audit *)
    ("vastdb_rowid", of_optional_int vastdb_rowid);
    ("UUID", VStr new_uuid);
    ("RogersAISchemaVersion", VStr ROGERS_AI_SCHEMA_VERSION);
    ("InsertDateTime", VDateTime now);
    ("UpdateDateTime", VDateTime now);
    ("InsertUser", VStr insert_user);
    ("UpdateUser", VStr insert_user);
    (* Source Document Metadata *)
    ("SourceDocumentName", VStr document_name);
    ("SourceDocumentPath", VNone);
    ("SourceDocumentHash", VNone);
    ("SourceDocumentTitle", VNone);
    ("SourceDocumentSummary", VNone);
    ("SourceDocumentAuthor", VNone);
    ("SourceDocumentOrganization", VNone);
    (* Document Content & Chunking *)
    ("DocumentChunkNumber", VInt 1);
    ("DocumentChunkText", VStr chunk_text);
    (* Vector Embeddings (set first provider if vector provided) *)
    ("DocumentEmbeddingModel01",
       if truthy embedding_vector then VStr "example-model" else VNone);
    ("DocumentEmbeddingURL01", VNone);
    ("DocumentEmbeddingVectors01", of_optional_list embedding_vector);
    ("DocumentEmbeddingModel02", VNone);
    ("DocumentEmbeddingURL02", VNone);
    ("DocumentEmbeddingVectors02", VNone);
    ("DocumentEmbeddingModel03", VNone);
    ("DocumentEmbeddingURL03", VNone);
    ("DocumentEmbeddingVectors03", VNone);
    ("DocumentEmbeddingModel04", VNone);
    ("DocumentEmbeddingURL04", VNone);
    ("DocumentEmbeddingVectors04", VNone);
    ("DocumentEmbeddingModel05", VNone);
    ("DocumentEmbeddingURL05", VNone);
    ("DocumentEmbeddingVectors05", VNone);
    (* Privacy & PII Protection (defaults for non-PII content) *)
    ("ContainsPII", VBool false);
    ("PIITypes", VNone);
    ("PIIDetectionMethod", VStr "not_detected");
    ("PIIDetectionDate", VDateTime now);
    ("SensitiveDataClassification", VStr "None");
    ("LegalBasisForProcessing", VNone);
    ("DataRetentionPeriod", VNone);
    ("DeletionScheduledDate", VNone);
    ("DeletionStatus", VNone);
    ("AnonymizationStatus", VStr "NotAnonymized");
    (* Data Governance & Lineage *)
    ("DatasetType", VStr "Production");
    ("DatasetPurpose", VNone);
    ("DataQualityScore", VNone);
    ("DataValidationStatus", VStr "Pending");
    ("DataValidationDate", VNone);
    ("DataValidatedBy", VNone);
    ("DataLineageChain", VNone);
    ("OriginalSourceType", VStr "FileSystem");
    (* Legal & Licensing *)
    ("CopyrightStatus", VNone);
    ("LicenseType", VNone);
    ("UsageRestrictions", VNone);
    ("CommercialUseAllowed", VNone);
    ("AttributionRequired", VNone);
    ("AttributionText", VNone);
    (* Risk Management *)
    ("RiskLevel", VStr "Low");
    ("ContentSafetyStatus", VStr "NotAssessed");
    ("ContentSafetyScore", VNone);
    ("ContentModerationDate", VNone);
    (* Access Control *)
    ("AccessControlLevel", VStr "Internal");
    ("DataClassification", VNone);
    ("AllowedRoles", VNone);
    (* Audit Trail *)
    ("LastModifiedReason", VStr "Initial insert");
    (* Lifecycle *)
    ("DocumentStatus", VStr "Active");
    ("DocumentVersion", VStr "1.0")
  ]).

(** The record a call returns in world [w]. *)
Definition example_record
    (w : Sys.World) (insert_user document_name chunk_text : string)
    (embedding_vector : option (list Num)) (vastdb_rowid : option Z) : Dict :=
  fst (create_example_record insert_user document_name chunk_text
         embedding_vector vastdb_rowid w).

(* ================================================================== *)
(** * Vocabulary of the design note *)
(* ================================================================== *)

(** The attribute groups of the data model, in the order the design note
    lists them, each with the column names the table gives its
    attributes. *)
Definition COLUMN_GROUPS : list (string * list string) := [
  ("Identity/audit",
     ["vastdb_rowid"; "UUID"; "RogersAISchemaVersion"; "InsertDateTime";
      "UpdateDateTime"; "InsertUser"; "UpdateUser"]);
  ("Source metadata",
     ["SourceDocumentName"; "SourceDocumentPath"; "SourceDocumentHash";
      "SourceDocumentTitle"; "SourceDocumentSummary"; "SourceDocumentAuthor";
      "SourceDocumentOrganization"]);
  ("Chunking", ["DocumentChunkNumber"; "DocumentChunkText"]);
  ("Embeddings",
     ["DocumentEmbeddingModel01"; "DocumentEmbeddingURL01"; "DocumentEmbeddingVectors01";
      "DocumentEmbeddingModel02"; "DocumentEmbeddingURL02"; "DocumentEmbeddingVectors02";
      "DocumentEmbeddingModel03"; "DocumentEmbeddingURL03"; "DocumentEmbeddingVectors03";
      "DocumentEmbeddingModel04"; "DocumentEmbeddingURL04"; "DocumentEmbeddingVectors04";
      "DocumentEmbeddingModel05"; "DocumentEmbeddingURL05"; "DocumentEmbeddingVectors05"]);
  ("Privacy/PII",
     ["ContainsPII"; "PIITypes"; "PIIDetectionMethod"; "PIIDetectionDate";
      "SensitiveDataClassification"; "LegalBasisForProcessing";
      "DataRetentionPeriod"; "DeletionScheduledDate"; "DeletionStatus";
      "AnonymizationStatus"]);
  ("Governance/lineage",
     ["DatasetType"; "DatasetPurpose"; "DataQualityScore"; "DataValidationStatus";
      "DataValidationDate"; "DataValidatedBy"; "DataLineageChain";
      "OriginalSourceType"]);
  ("Legal/licensing",
     ["CopyrightStatus"; "LicenseType"; "UsageRestrictions";
      "CommercialUseAllowed"; "AttributionRequired"; "AttributionText"]);
  ("Risk/safety",
     ["RiskLevel"; "ContentSafetyStatus"; "ContentSafetyScore";
      "ContentModerationDate"]);
  ("Access control", ["AccessControlLevel"; "DataClassification"; "AllowedRoles"]);
  ("Audit", ["LastModifiedReason"]);
  ("Lifecycle", ["DocumentStatus"; "DocumentVersion"])
].

(** The fixed column list. *)
Definition COLUMN_NAMES : list string := List.concat (map snd COLUMN_GROUPS).

Definition is_list_type (t : pa.DataType) : bool :=
  match t with
  | pa.ListType _ | pa.FixedSizeListType _ _ => true
  | _ => false
  end.

(** The list-typed columns of a schema, each with its fixed length. *)
Definition vector_columns (s : pa.Schema) : list (string * option Z) :=
  map (fun f => (pa.name f, pa.list_size (pa.type f)))
      (filter (fun f => is_list_type (pa.type f)) s).


(** A message names [part] when [part] occurs in it. *)
Definition mentions (msg part : string) : Prop :=
  exists pre post, msg = pre ++ part ++ post.

(** A number lies in the closed interval from [lo] to [hi]. *)
Definition in_closed_interval (lo hi : Q) (x : Num) : Prop :=
  match Py.value x with
  | Fin q => (lo <= q /\ q <= hi)%Q
  | _ => False
  end.

(** The three columns of provider slot [nn]. *)
Definition slot_columns (nn : string) : list string :=
  ["DocumentEmbeddingModel" ++ nn; "DocumentEmbeddingURL" ++ nn;
   "DocumentEmbeddingVectors" ++ nn].

(** Every column of the slot is present in the record and null. *)
Definition slot_is_null (d : Dict) (nn : string) : Prop :=
  Forall (fun k => Py.get d k = Some VNone) (slot_columns nn).

(** The record's entry for an enum field is null, or a string among the
    field's allowed values, which [validate_enum_field] lets through. *)
Definition enum_field_valid (d : Dict) (entry : string * list string) : Prop :=
  Py.get d (fst entry) = Some VNone \/
  exists s,
    Py.get d (fst entry) = Some (VStr s) /\
    In s (snd entry) /\
    validate_enum_field s (snd entry) (fst entry) = Return s.

(** The same, decided. *)
Definition enum_field_validb (d : Dict) (entry : string * list string) : bool :=
  match Py.get d (fst entry) with
  | Some VNone => true
  | Some (VStr s) => str_in s (snd entry)
  | _ => false
  end.

(** A world for running the impure functions on concrete inputs. *)
Definition sample_world : Sys.World :=
  Sys.mkWorld
    (fun n => 1700000000000000 + Z.of_nat n) 0
    (fun n => match Byte.of_nat (17 * n + 3) with Some b => b | None => x00 end) 0.

(** Binary64 values used in the boundary checks. *)
Definition float_minus_0_0001 : spec_float := S754_finite true 7378697629483821 (-66).
Definition float_100_0001 : spec_float := S754_finite false 7036881454640818 (-46).
Definition float_100_0 : spec_float := S754_finite false 7036874417766400 (-46).

Scheme DataType_mutind := Induction for pa.DataType Sort Prop
  with Field_mutind := Induction for pa.Field Sort Prop.

Combined Scheme DataType_Field_mutind from DataType_mutind, Field_mutind.

(* ================================================================== *)
(** * Effects of the table management functions and of the command line *)
(* ================================================================== *)

Module Effects.

(** An object the VAST SDK hands out (session, transaction, bucket,
    schema, table). *)
Definition Handle : Type := nat.

(** What ends a run other than a returned value. *)
Inductive Failure : Type :=
| PyError (e : Py.Exn)
| RuntimeError (msg : string)
| SdkError (msg : string)
| SystemExit (code : Z).

(** The SDK calls the module makes.  [session_transaction] and
    [transaction_exit] are the two ends of the [with] statement. *)
Inductive Call : Type :=
| vastdb_connect (endpoint access secret : string)
| session_transaction (session : Handle)
| transaction_exit (tx : Handle) (failed : bool)
| tx_bucket (tx : Handle) (name : string)
| bucket_schema (bucket : Handle) (name : string)
| bucket_create_schema (bucket : Handle) (name : string)
| schema_table (schema : Handle) (name : string)
| table_drop (table : Handle)
| schema_create_table (schema : Handle) (name : string) (arrow_schema : pa.Schema).

(** What a call gives back when it does not raise: nothing, an object, or
    an object that may be missing ([None] with [fail_if_missing=False]). *)
Inductive Kind : Type := k_unit | k_object | k_optional.

Definition kind (c : Call) : Kind :=
  match c with
  | vastdb_connect _ _ _ => k_object
  | session_transaction _ => k_object
  | transaction_exit _ _ => k_unit
  | tx_bucket _ _ => k_object
  | bucket_schema _ _ => k_optional
  | bucket_create_schema _ _ => k_object
  | schema_table _ _ => k_optional
  | table_drop _ => k_unit
  | schema_create_table _ _ _ => k_optional
  end.

Definition Answer (k : Kind) : Type :=
  match k with
  | k_unit => unit
  | k_object => Handle
  | k_optional => option Handle
  end.

Inductive Reply (c : Call) : Type :=
| raised (msg : string)
| returned (a : Answer (kind c)).
Arguments raised {c} msg.
Arguments returned {c} a.

(** A function body as the tree of its prints and SDK calls. *)
Inductive Prog (A : Type) : Type :=
| Ret (a : A)
| Throw (f : Failure)
| Out (line : string) (k : Prog A)
| Do (c : Call) (k : Reply c -> Prog A).
Arguments Ret {A} a.
Arguments Throw {A} f.
Arguments Out {A} line k.
Arguments Do {A} c k.

Fixpoint bind {A B : Type} (p : Prog A) (f : A -> Prog B) : Prog B :=
  match p with
  | Ret a => f a
  | Throw x => Throw x
  | Out line k => Out line (bind k f)
  | Do c k => Do c (fun r => bind (k r) f)
  end.

(** [print(line)]. *)
Definition print (line : string) : Prog unit := Out line (Ret tt).

(** An SDK call; what it raises propagates. *)
Definition call (c : Call) : Prog (Answer (kind c)) :=
  Do c (fun r =>
          match r with
          | raised msg => Throw (SdkError msg)
          | returned a => Ret a
          end).

(** A value or exception of the pure part of the module. *)
Definition lift {A : Type} (r : Result A) : Prog A :=
  match r with
  | Return a => Ret a
  | Raise e => Throw (PyError e)
  end.

(** Leaving a [with session.transaction() as tx] block: the context
    manager is told whether the body failed; it does not swallow the
    failure, and what it raises itself propagates. *)
Fixpoint leaving {A : Type} (tx : Handle) (body : Prog A) : Prog A :=
  match body with
  | Ret a =>
      Do (transaction_exit tx false)
         (fun r =>
            match r with
            | raised msg => Throw (SdkError msg)
            | returned _ => Ret a
            end)
  | Throw f =>
      Do (transaction_exit tx true)
         (fun r =>
            match r with
            | raised msg => Throw (SdkError msg)
            | returned _ => Throw f
            end)
  | Out line k => Out line (leaving tx k)
  | Do c k => Do c (fun r => leaving tx (k r))
  end.

(** [try: body except Exception as e: handler(e)].  [SystemExit] is not an
    [Exception] and passes through. *)
Fixpoint try_except {A : Type} (body : Prog A) (handler : Failure -> Prog A)
    : Prog A :=
  match body with
  | Ret a => Ret a
  | Throw (SystemExit code) => Throw (SystemExit code)
  | Throw f => handler f
  | Out line k => Out line (try_except k handler)
  | Do c k => Do c (fun r => try_except (k r) handler)
  end.

(** [str(e)] of an exception. *)
Definition failure_str (f : Failure) : string :=
  match f with
  | PyError (ValueError msg) => msg
  | PyError (OverflowError msg) => msg
  | RuntimeError msg => msg
  | SdkError msg => msg
  | SystemExit code => str_int code
  end.

(** ** Running a program against an SDK *)

Inductive Event : Type :=
| printed (line : string)
| called (c : Call).

(** The SDK answers each call, knowing what happened before. *)
Definition Sdk : Type := list Event -> forall c : Call, Reply c.

(** The events of a run, oldest first, and how it ended. *)
Fixpoint run {A : Type} (sdk : Sdk) (p : Prog A) (past : list Event)
    : list Event * (A + Failure) :=
  match p with
  | Ret a => (past, inl a)
  | Throw f => (past, inr f)
  | Out line k => run sdk k (past ++ [printed line])
  | Do c k => run sdk (k (sdk past c)) (past ++ [called c])
  end.

Definition calls (trace : list Event) : list Call :=
  flat_map (fun e => match e with called c => [c] | printed _ => [] end) trace.

Definition output (trace : list Event) : list string :=
  flat_map (fun e => match e with printed l => [l] | called _ => [] end) trace.

(** The status the process ends with: 0 after a normal end, the code of
    [exit(code)], 1 after an uncaught exception. *)
Definition exit_status {A : Type} (end_ : A + Failure) : Z :=
  match end_ with
  | inl _ => 0
  | inr (SystemExit code) => code
  | inr _ => 1
  end.

End Effects.

Import Effects.

Notation "x <-- c1 ;; c2" := (Effects.bind c1 (fun x => c2))
  (at level 61, c1 at next level, right associativity).
Notation "c1 ;;; c2" := (Effects.bind c1 (fun _ => c2))
  (at level 61, right associativity).

(** The line feed. *)
Definition nl : string := String "010"%char EmptyString.

(** [s * n]. *)
Fixpoint str_repeat (s : string) (n : nat) : string :=
  match n with
  | O => EmptyString
  | S n' => s ++ str_repeat s n'
  end.

(** [f"{s:N}"] for a number already turned into text: right-aligned in
    [width] columns. *)
Definition rjust (width : nat) (s : string) : string :=
  str_repeat " " (width - String.length s) ++ s.

(** [enumerate(l)]. *)
Definition enumerate {A : Type} (l : list A) : list (nat * A) :=
  combine (seq 0 (List.length l)) l.

(** [for x in l: body(x)]. *)
Fixpoint for_each {A : Type} (l : list A) (body : A -> Prog unit) : Prog unit :=
  match l with
  | [] => Ret tt
  | x :: l' => body x ;;; for_each l' body
  end.

(** The module-level configuration, read from the environment when the
    module is loaded. *)
Record Config : Type := mkConfig {
  VAST_ENDPOINT : string;
  VAST_ACCESS_KEY : string;
  VAST_SECRET_KEY : string;
  BUCKET_NAME : string;
  SCHEMA_NAME : string;
  VECTOR_DIMENSIONS : Z;
  VASTDB_AVAILABLE : bool
}.

(** A call of the schema builder as a call site writes it: the argument
    may be left out, and then is the default the [def] statement bound when
    the module was loaded, [VECTOR_DIMENSIONS]. *)
Definition call_create_ai_documents_schema
    (cfg : Config) (vector_dims : option Z) : Result pa.Schema :=
  create_ai_documents_schema
    match vector_dims with
    | Some n => n
    | None => VECTOR_DIMENSIONS cfg
    end.

(** Truth value of a string: the empty string is falsy. *)
Definition str_truthy (s : string) : bool :=
  match s with
  | EmptyString => false
  | String _ _ => true
  end.

(* ================================================================== *)
(** * VASTDB table management functions *)
(* ================================================================== *)

Definition table_ready_lines
    (headline bucket_name schema_name : string) (vector_dims : Z)
    (arrow_schema : pa.Schema) : Prog unit :=
  print EmptyString ;;;
  print headline ;;;
  print ("  Schema: " ++ schema_name) ;;;
  print ("  Bucket: " ++ bucket_name) ;;;
  print ("  Vector dimensions: " ++ str_int vector_dims) ;;;
  print ("  Total columns: " ++ str_int (Z.of_nat (List.length arrow_schema))).

(** The body of the [with] block; [Some b] is [return b], [None] falls out
    of the block. *)
Definition create_table_in_transaction
    (tx : Handle) (bucket_name schema_name table_name : string)
    (vector_dims : Z) (drop_existing : bool) (arrow_schema : pa.Schema)
    : Prog (option bool) :=
  bucket <-- call (tx_bucket tx bucket_name) ;;
  print ("Creating/accessing schema: " ++ schema_name) ;;;
  found <-- call (bucket_schema bucket schema_name) ;;
  schema <-- match found with
             | Some schema => Ret schema
             | None => call (bucket_create_schema bucket schema_name)
             end ;;
  print ("Creating/accessing table: " ++ table_name) ;;;
  existing_table <-- call (schema_table schema table_name) ;;
  let create :=
    table <-- call (schema_create_table schema table_name arrow_schema) ;;
    match table with
    | Some _ =>
        table_ready_lines
          ("✓ Table '" ++ table_name ++ "' created successfully!")
          bucket_name schema_name vector_dims arrow_schema ;;;
        Ret (Some true)
    | None => Ret None
    end in
  match existing_table with
  | Some existing =>
      if drop_existing then
        print ("Dropping existing table '" ++ table_name ++ "'...") ;;;
        call (table_drop existing) ;;;
        print "Table dropped. Creating fresh table..." ;;;
        create
      else
        print ("Table '" ++ table_name ++ "' already exists.") ;;;
        print "  (Use --drop to recreate)" ;;;
        table_ready_lines
          ("✓ Table '" ++ table_name ++ "' ready!")
          bucket_name schema_name vector_dims arrow_schema ;;;
        Ret (Some true)
  | None => create
  end.

Definition create_table_in_vastdb
    (available : bool)
    (endpoint access_key secret_key bucket_name schema_name table_name : string)
    (vector_dims : Z) (drop_existing : bool) : Prog bool :=
  if negb available then
    Throw (RuntimeError
             "vastdb SDK is not installed. Install with: pip install vastdb")
  else
    arrow_schema <-- lift (create_ai_documents_schema vector_dims) ;;
    print ("Connecting to VAST cluster at " ++ endpoint ++ "...") ;;;
    session <-- call (vastdb_connect endpoint access_key secret_key) ;;
    print "Connected successfully!" ;;;
    print ("Accessing bucket: " ++ bucket_name) ;;;
    tx <-- call (session_transaction session) ;;
    result <-- leaving tx
                 (create_table_in_transaction tx bucket_name schema_name
                    table_name vector_dims drop_existing arrow_schema) ;;
    match result with
    | Some b => Ret b
    | None => Ret false
    end.

Section CommandLine.

(** [str(t)] of an Arrow type is PyArrow's. *)
Variable type_str : pa.DataType -> string.

(** The text of the example queries. *)
Variable VECTOR_SEARCH_EXAMPLES : string.

Variable cfg : Config.

Definition print_schema_info (vector_dims : Z) : Prog unit :=
  schema <-- lift (create_ai_documents_schema vector_dims) ;;
  print (nl ++ str_repeat "=" 70) ;;;
  print "Rogers-AI-Schema v1.0.0-tier1 - VASTDB Implementation" ;;;
  print (str_repeat "=" 70) ;;;
  print (nl ++ "Total fields: " ++ str_int (Z.of_nat (List.length schema))) ;;;
  print ("Vector dimensions: " ++ str_int vector_dims) ;;;
  print (nl ++ "Field Groups:") ;;;
  print (str_repeat "-" 40) ;;;
  for_each print_schema_info_groups
    (fun group =>
       print ("  " ++ fst group ++ ": " ++ str_int (snd group) ++ " fields")) ;;;
  print (nl ++ str_repeat "-" 40) ;;;
  print "Schema Fields:" ;;;
  print (str_repeat "-" 40) ;;;
  for_each (enumerate schema)
    (fun entry =>
       let i := fst entry in
       let field := snd entry in
       let nullable := if pa.nullable field then "NULL" else "NOT NULL" in
       print ("  " ++ rjust 2 (str_int (Z.of_nat i + 1)) ++ ". " ++
              pa.name field ++ ": " ++ type_str (pa.type field) ++
              " (" ++ nullable ++ ")")) ;;;
  print (nl ++ str_repeat "=" 70).

(** The parsed command line. *)
Record Args : Type := mkArgs {
  info : bool;
  create : bool;
  drop : bool;
  dims : Z;
  examples : bool
}.

Definition quoted (s : string) : string :=
  String dquote (s ++ String dquote EmptyString).

(** The main block, once the arguments are parsed. *)
Definition main (args : Args) : Prog unit :=
  (if info args || (negb (create args) && negb (examples args))
   then print_schema_info (dims args) else Ret tt) ;;;
  (if examples args then print VECTOR_SEARCH_EXAMPLES else Ret tt) ;;;
  if create args then
    (if negb (str_truthy (VAST_ACCESS_KEY cfg)) ||
        negb (str_truthy (VAST_SECRET_KEY cfg))
     then
       print (nl ++ "Error: VAST_ACCESS_KEY and VAST_SECRET_KEY environment variables must be set.") ;;;
       print "Example:" ;;;
       print ("  export VAST_ENDPOINT=" ++ quoted "your-cluster.example.com") ;;;
       print ("  export VAST_ACCESS_KEY=" ++ quoted "your-access-key") ;;;
       print ("  export VAST_SECRET_KEY=" ++ quoted "your-secret-key") ;;;
       Throw (SystemExit 1)
     else Ret tt) ;;;
    (if drop args
     then print (nl ++ "⚠️  WARNING: --drop flag set. Existing table will be deleted!")
     else Ret tt) ;;;
    try_except
      (success <-- create_table_in_vastdb (VASTDB_AVAILABLE cfg)
                     (VAST_ENDPOINT cfg) (VAST_ACCESS_KEY cfg)
                     (VAST_SECRET_KEY cfg) (BUCKET_NAME cfg) (SCHEMA_NAME cfg)
                     TABLE_NAME (dims args) (drop args) ;;
       if success then print (nl ++ "✓ Table creation completed successfully!")
       else print (nl ++ "✗ Table creation failed.") ;;; Throw (SystemExit 1))
      (fun e =>
         print (nl ++ "✗ Error creating table: " ++ failure_str e) ;;;
         Throw (SystemExit 1))
  else Ret tt.

End CommandLine.

(* ================================================================== *)
(** * Vocabulary for relating records to the schema *)
(* ================================================================== *)

(** Signed integers of [bits] bits. *)
Definition in_int_range (bits : Z) (z : Z) : bool :=
  (- 2 ^ (bits - 1) <=? z) && (z <? 2 ^ (bits - 1)).

(** The shape of a non-null value is the one a column of Arrow type [t]
    takes: text, a truth value, an integer in range, a datetime, or a list
    of the fixed length.  The elements of a list are not looked at; see
    [value_conforms]. *)
Definition value_fits (t : pa.DataType) (v : Val) : bool :=
  match t, v with
  | pa.string, VStr _ => true
  | pa.bool_, VBool _ => true
  | pa.int32, VInt z => in_int_range 32 z
  | pa.int64, VInt z => in_int_range 64 z
  | pa.timestamp _ _, VDateTime _ => true
  | pa.ListType _, VList _ => true
  | pa.FixedSizeListType _ n, VList l => Z.of_nat (List.length l) =? n
  | _, _ => false
  end.

(** The entry is the one of column [f]: same name, and null in a nullable
    column or a fitting value. *)
Definition entry_fits (f : pa.Field) (kv : string * Val) : bool :=
  String.eqb (pa.name f) (fst kv) &&
  match snd kv with
  | VNone => pa.nullable f
  | v => value_fits (pa.type f) v
  end.

(** The record has exactly the schema's columns, in order, each with an
    entry of fitting shape. *)
Fixpoint record_fits (s : pa.Schema) (d : Dict) : bool :=
  match s, d with
  | [], [] => true
  | f :: s', kv :: d' => entry_fits f kv && record_fits s' d'
  | _, _ => false
  end.

(** A Python number can be stored in a numeric Arrow type: any float in a
    float type (it is rounded to the type), an int only if the type holds
    it exactly (magnitude up to [2^24] for float32, [2^53] for float64,
    the signed range for the integer types). *)
Definition number_fits (t : pa.DataType) (x : Num) : bool :=
  match t, x with
  | pa.float32, Float _ => true
  | pa.float32, Int z => Z.abs z <=? 2 ^ 24
  | pa.float64, Float _ => true
  | pa.float64, Int z => Z.abs z <=? 2 ^ 53
  | pa.int32, Int z => in_int_range 32 z
  | pa.int64, Int z => in_int_range 64 z
  | _, _ => false
  end.

(** A non-null value is a value of Arrow type [t]; for a list type, every
    element is a value of the item type, and a fixed-size list has the
    fixed length. *)
Definition value_conforms (t : pa.DataType) (v : Val) : bool :=
  match t, v with
  | pa.string, VStr _ => true
  | pa.bool_, VBool _ => true
  | pa.int32, VInt z => in_int_range 32 z
  | pa.int64, VInt z => in_int_range 64 z
  | pa.timestamp _ _, VDateTime _ => true
  | pa.ListType item, VList l => forallb (number_fits (pa.type item)) l
  | pa.FixedSizeListType item n, VList l =>
      (Z.of_nat (List.length l) =? n) && forallb (number_fits (pa.type item)) l
  | _, _ => false
  end.

Definition entry_conforms (f : pa.Field) (kv : string * Val) : bool :=
  String.eqb (pa.name f) (fst kv) &&
  match snd kv with
  | VNone => pa.nullable f
  | v => value_conforms (pa.type f) v
  end.

(** The record has exactly the schema's columns, in order, each entry null
    in a nullable column or a value of the column's type. *)
Fixpoint record_conforms (s : pa.Schema) (d : Dict) : bool :=
  match s, d with
  | [], [] => true
  | f :: s', kv :: d' => entry_conforms f kv && record_conforms s' d'
  | _, _ => false
  end.

(** The entries of the example record that come from the clock or the
    random source. *)
Definition WORLD_KEYS : list string :=
  ["UUID"; "InsertDateTime"; "UpdateDateTime"; "PIIDetectionDate"].

(** The columns that are not list-typed. *)
Definition scalar_columns (s : pa.Schema) : list pa.Field :=
  filter (fun f => negb (is_list_type (pa.type f))) s.

(** The hexadecimal digits of a UUID text, hyphens left out. *)
Definition uuid_digits (s : string) : list ascii :=
  filter (fun c => negb (Ascii.eqb c "-"%char)) (list_ascii_of_string s).

(** The place of each SDK call in the text of [create_table_in_vastdb]. *)
Definition call_position (c : Call) : nat :=
  match c with
  | vastdb_connect _ _ _ => 0
  | session_transaction _ => 1
  | tx_bucket _ _ => 2
  | bucket_schema _ _ => 3
  | bucket_create_schema _ _ => 4
  | schema_table _ _ => 5
  | table_drop _ => 6
  | schema_create_table _ _ _ => 7
  | transaction_exit _ _ => 8
  end%nat.

(** Strictly increasing. *)
Fixpoint increasing (l : list nat) : bool :=
  match l with
  | x :: ((y :: _) as l') => (x <? y)%nat && increasing l'
  | _ => true
  end.

(** An SDK that never raises and answers every call with the object [h]:
    every bucket, schema and table asked for exists. *)
Definition sdk_with_everything (h : Handle) : Sdk :=
  fun _ c =>
    returned
      (match kind c as k return Answer k with
       | k_unit => tt
       | k_object => h
       | k_optional => Some h
       end).


(** The line ends with [suffix]. *)
Definition ends_with (line suffix : string) : Prop :=
  exists front, line = front ++ suffix.

(** The five vector column names. *)
Definition VECTOR_COLUMN_NAMES : list string :=
  ["DocumentEmbeddingVectors01"; "DocumentEmbeddingVectors02";
   "DocumentEmbeddingVectors03"; "DocumentEmbeddingVectors04";
   "DocumentEmbeddingVectors05"].

(* ================================================================== *)
(** * Properties of the schema builder *)
(* ================================================================== *)

Lemma as_c_int_fits (z : Z) :
  pa.INT_MIN <= z <= pa.INT_MAX -> pa.as_c_int z = Return z.
Proof.
  unfold pa.INT_MIN, pa.INT_MAX. intros Hz. unfold pa.as_c_int.
  destruct (Z.ltb_spec z (- 2 ^ 63)) as [? | _]; [lia |].
  destruct (Z.ltb_spec (2 ^ 63 - 1) z) as [? | _]; [lia |].
  cbn [orb]. unfold pa.INT_MIN, pa.INT_MAX.
  destruct (Z.ltb_spec z (- 2 ^ 31)) as [? | _]; [lia |].
  destruct (Z.ltb_spec (2 ^ 31 - 1) z) as [? | _]; [lia |].
  reflexivity.
Qed.

Lemma as_c_int_overflows (z : Z) :
  z < pa.INT_MIN \/ pa.INT_MAX < z ->
  exists msg, pa.as_c_int z = Raise (OverflowError msg).
Proof.
  unfold pa.INT_MIN, pa.INT_MAX. intros Hz. unfold pa.as_c_int.
  destruct ((z <? - 2 ^ 63) || (2 ^ 63 - 1 <? z)); [eauto |].
  unfold pa.INT_MIN, pa.INT_MAX.
  destruct (Z.ltb_spec z (- 2 ^ 31)) as [? | ?];
    destruct (Z.ltb_spec (2 ^ 31 - 1) z) as [? | ?]; cbn [orb]; eauto; lia.
Qed.

Lemma list_fixed (f : pa.Field) (n : Z) :
  0 <= n <= pa.INT_MAX -> pa.list_ f n = Return (pa.FixedSizeListType f n).
Proof.
  intros Hn. unfold pa.list_.
  rewrite as_c_int_fits by (unfold pa.INT_MIN, pa.INT_MAX in *; lia).
  cbn [Py.bind].
  destruct (Z.eqb_spec n (-1)) as [E | _]; [lia |].
  destruct (Z.ltb_spec n 0) as [L | _]; [lia | reflexivity].
Qed.

Lemma list_refused (f : pa.Field) (n : Z) :
  n < -1 -> exists e, pa.list_ f n = Raise e.
Proof.
  intros Hn. unfold pa.list_.
  destruct (pa.as_c_int n) as [m | e] eqn:E; [| cbn [Py.bind]; eauto].
  assert (m = n).
  { unfold pa.as_c_int in E.
    destruct ((n <? - 2 ^ 63) || (2 ^ 63 - 1 <? n)); [discriminate |].
    destruct ((n <? pa.INT_MIN) || (pa.INT_MAX <? n)); [discriminate |].
    congruence. }
  subst m. cbn [Py.bind].
  destruct (Z.eqb_spec n (-1)) as [? | _]; [lia |].
  destruct (Z.ltb_spec n 0) as [_ | L]; [eauto | lia].
Qed.

Lemma list_overflows (f : pa.Field) (n : Z) :
  n < pa.INT_MIN \/ pa.INT_MAX < n ->
  exists msg, pa.list_ f n = Raise (OverflowError msg).
Proof.
  intros Hn. unfold pa.list_.
  destruct (as_c_int_overflows n Hn) as [msg E]. rewrite E. cbn [Py.bind]. eauto.
Qed.

Lemma create_vector_field_fixed (name : string) (dims : Z) :
  0 <= dims <= pa.INT_MAX ->
  create_vector_field name dims =
  Return (pa.mkField name
            (pa.FixedSizeListType (pa.mkField "item" pa.float32 false) dims) true).
Proof.
  intros Hd. unfold create_vector_field. rewrite list_fixed by assumption.
  reflexivity.
Qed.

Lemma create_vector_field_overflows (name : string) (dims : Z) :
  dims < pa.INT_MIN \/ pa.INT_MAX < dims ->
  exists msg, create_vector_field name dims = Raise (OverflowError msg).
Proof.
  intros Hd. unfold create_vector_field.
  destruct (list_overflows (pa.field_with "item" pa.float32 false) dims Hd)
    as [msg E].
  rewrite E. cbn [Py.bind]. eauto.
Qed.

(** C8, as amended.  For every column name and every positive dimension
    [N] that fits a C [int] ([N <= 2^31 - 1]), [create_vector_field]
    returns a column of that name whose type is a fixed-size list of length
    [N]; the element field is called "item", is a 32-bit float and is not
    nullable, while the column itself is nullable. *)
Theorem create_vector_field_shape (name : string) (N : Z) :
  0 < N <= 2 ^ 31 - 1 ->
  exists f elt,
    create_vector_field name N = Return f /\
    pa.name f = name /\
    pa.nullable f = true /\
    pa.type f = pa.FixedSizeListType elt N /\
    pa.name elt = "item" /\
    pa.type elt = pa.float32 /\
    pa.nullable elt = false.
Proof.
  intros HN. eexists. eexists.
  rewrite create_vector_field_fixed by (unfold pa.INT_MAX; lia).
  repeat split; reflexivity.
Qed.

(** C8, as stated, fails at [N = 2^31]: PyArrow takes the list size as a C
    [int], and the call raises [OverflowError] instead of building a
    column. *)
Lemma create_vector_field_overflow_at_2_31 :
  (exists msg,
     create_vector_field "DocumentEmbeddingVectors01" (2 ^ 31) =
     Raise (OverflowError msg)) /\
  ~ (exists f,
       create_vector_field "DocumentEmbeddingVectors01" (2 ^ 31) = Return f).
Proof.
  split.
  - eexists. reflexivity.
  - intros [f Hf]. discriminate Hf.
Qed.

Lemma create_vector_field_shape_witness :
  0 < 1024 <= 2 ^ 31 - 1 /\
  exists f elt,
    create_vector_field "DocumentEmbeddingVectors01" 1024 = Return f /\
    pa.name f = "DocumentEmbeddingVectors01" /\
    pa.nullable f = true /\
    pa.type f = pa.FixedSizeListType elt 1024 /\
    pa.name elt = "item" /\
    pa.type elt = pa.float32 /\
    pa.nullable elt = false.
Proof.
  assert (H : 0 < 1024 <= 2 ^ 31 - 1) by (split; [reflexivity | discriminate]).
  split; [exact H |].
  exact (create_vector_field_shape "DocumentEmbeddingVectors01" 1024 H).
Defined.

(** The schema the builder returns for a dimension from 0 up, written
    out. *)
Lemma create_ai_documents_schema_returns (N : Z) :
  0 <= N <= pa.INT_MAX ->
  exists s,
    create_ai_documents_schema N = Return s /\
    List.length s = 65%nat /\
    pa.names s = COLUMN_NAMES /\
    vector_columns s =
      [("DocumentEmbeddingVectors01", Some N);
       ("DocumentEmbeddingVectors02", Some N);
       ("DocumentEmbeddingVectors03", Some N);
       ("DocumentEmbeddingVectors04", Some N);
       ("DocumentEmbeddingVectors05", Some N)] /\
    Forall (fun f => pa.nullable f = true) s.
Proof.
  intros HN. unfold create_ai_documents_schema.
  rewrite !create_vector_field_fixed by assumption.
  cbn [Py.bind]. eexists. split; [reflexivity |].
  repeat split; try reflexivity.
  repeat constructor.
Qed.

(** A dimension below [-1] is refused by PyArrow, and the builder passes
    the error on. *)
Lemma create_ai_documents_schema_refuses (N : Z) :
  N < -1 -> exists e, create_ai_documents_schema N = Raise e.
Proof.
  intros HN. unfold create_ai_documents_schema, create_vector_field.
  destruct (list_refused (pa.field_with "item" pa.float32 false) N HN) as [e He].
  rewrite He. exists e. reflexivity.
Qed.

(** Dimension [-1] is not refused: PyArrow reads it as a request for
    variable-length lists, so no vector column has a fixed length. *)
Lemma create_ai_documents_schema_minus_one :
  exists s,
    create_ai_documents_schema (-1) = Return s /\
    vector_columns s =
      [("DocumentEmbeddingVectors01", None);
       ("DocumentEmbeddingVectors02", None);
       ("DocumentEmbeddingVectors03", None);
       ("DocumentEmbeddingVectors04", None);
       ("DocumentEmbeddingVectors05", None)].
Proof. eexists. split; reflexivity. Qed.

(** A dimension that does not fit a C [int] is refused with
    [OverflowError]. *)
Lemma create_ai_documents_schema_overflows (N : Z) :
  N < pa.INT_MIN \/ pa.INT_MAX < N ->
  exists msg, create_ai_documents_schema N = Raise (OverflowError msg).
Proof.
  intros HN. unfold create_ai_documents_schema.
  destruct (create_vector_field_overflows "DocumentEmbeddingVectors01" N HN)
    as [msg E].
  rewrite E. cbn [Py.bind]. eauto.
Qed.

(** C1, as amended.  For every positive dimension [N] that fits a C
    [int] ([N <= 2^31 - 1]), [create_ai_documents_schema] returns a schema
    of exactly 65 columns whose names, in order, are the fixed column list,
    and whose list-typed columns are exactly the five embedding-vector
    columns, each a fixed-size list of length [N]. *)
Theorem schema_has_65_fixed_columns (N : Z) :
  0 < N <= 2 ^ 31 - 1 ->
  exists s,
    create_ai_documents_schema N = Return s /\
    List.length s = 65%nat /\
    pa.names s = COLUMN_NAMES /\
    vector_columns s =
      [("DocumentEmbeddingVectors01", Some N);
       ("DocumentEmbeddingVectors02", Some N);
       ("DocumentEmbeddingVectors03", Some N);
       ("DocumentEmbeddingVectors04", Some N);
       ("DocumentEmbeddingVectors05", Some N)].
Proof.
  intros HN.
  destruct (create_ai_documents_schema_returns N) as (s & Hs & Hlen & Hnames & Hvec & _);
    [unfold pa.INT_MAX; lia |].
  exists s. auto.
Qed.

Lemma schema_has_65_fixed_columns_witness :
  0 < 1024 <= 2 ^ 31 - 1 /\
  exists s,
    create_ai_documents_schema 1024 = Return s /\
    List.length s = 65%nat /\
    pa.names s = COLUMN_NAMES /\
    vector_columns s =
      [("DocumentEmbeddingVectors01", Some 1024);
       ("DocumentEmbeddingVectors02", Some 1024);
       ("DocumentEmbeddingVectors03", Some 1024);
       ("DocumentEmbeddingVectors04", Some 1024);
       ("DocumentEmbeddingVectors05", Some 1024)].
Proof.
  assert (H : 0 < 1024 <= 2 ^ 31 - 1) by (split; [reflexivity | discriminate]).
  split; [exact H |].
  exact (schema_has_65_fixed_columns 1024 H).
Defined.

(** The group sizes [print_schema_info] reports are those of the column
    groups; they add up to 65, the number of names in the fixed list. *)
Lemma group_sizes_agree :
  map snd print_schema_info_groups =
    map (fun g => Z.of_nat (List.length (snd g))) COLUMN_GROUPS /\
  fold_right Z.add 0 (map snd print_schema_info_groups) = 65 /\
  List.length COLUMN_NAMES = 65%nat.
Proof. repeat split; reflexivity. Qed.

(** C1, as stated, fails: the schema built for dimension 1024 does not
    have 52 columns. *)
Lemma schema_does_not_have_52_columns :
  ~ (exists s,
       create_ai_documents_schema 1024 = Return s /\ List.length s = 52%nat).
Proof.
  intros (s & Hs & Hlen).
  destruct (create_ai_documents_schema_returns 1024) as (s' & Hs' & Hlen' & _);
    [unfold pa.INT_MAX; lia |].
  rewrite Hs' in Hs. inversion Hs; subst s'.
  rewrite Hlen' in Hlen. discriminate.
Qed.

Lemma column_names_distinct : NoDup COLUMN_NAMES.
Proof.
  assert (H : forall l : list string,
             (fix nodupb (l : list string) : bool :=
                match l with
                | [] => true
                | x :: l' => negb (str_in x l') && nodupb l'
                end) l = true -> NoDup l).
  { induction l as [| x l IH]; intros H; [constructor |].
    apply andb_prop in H. destruct H as [H1 H2].
    constructor; [| auto].
    intros Hin. unfold str_in in H1.
    assert (E : existsb (String.eqb x) l = true).
    { apply existsb_exists. exists x. split; [assumption | apply String.eqb_refl]. }
    rewrite E in H1. discriminate. }
  apply H. vm_compute. reflexivity.
Qed.

(** ** Equality of schemas *)

Lemma unit_eqb_eq (a b : pa.TimeUnit) : pa.unit_eqb a b = true <-> a = b.
Proof. destruct a, b; simpl; split; intros H; congruence. Qed.

Lemma tz_eqb_eq (a b : option string) : pa.tz_eqb a b = true <-> a = b.
Proof.
  destruct a as [x |], b as [y |]; simpl; split; intros H;
    try congruence; try discriminate.
  - apply String.eqb_eq in H. congruence.
  - inversion H. apply String.eqb_refl.
Qed.

Lemma type_equals_eq_mutual :
  (forall t t', pa.type_equals t t' = true <-> t = t') /\
  (forall f f', pa.field_equals f f' = true <-> f = f').
Proof.
  apply DataType_Field_mutind.
  - intros []; simpl; split; intros H; congruence.
  - intros []; simpl; split; intros H; congruence.
  - intros []; simpl; split; intros H; congruence.
  - intros []; simpl; split; intros H; congruence.
  - intros []; simpl; split; intros H; congruence.
  - intros []; simpl; split; intros H; congruence.
  - intros u z [| | | | | | u' z' | |]; simpl; split; intros H;
      try congruence.
    + apply andb_prop in H. destruct H as [H1 H2].
      apply unit_eqb_eq in H1. apply tz_eqb_eq in H2. congruence.
    + inversion H; subst. apply andb_true_intro.
      split; [apply unit_eqb_eq | apply tz_eqb_eq]; reflexivity.
  - intros vf IH [| | | | | | | vf' |]; simpl; split; intros H;
      try congruence.
    + apply IH in H. congruence.
    + inversion H; subst. apply IH. reflexivity.
  - intros vf IH n [| | | | | | | | vf' n']; simpl; split; intros H;
      try congruence.
    + apply andb_prop in H. destruct H as [H1 H2].
      apply IH in H1. apply Z.eqb_eq in H2. congruence.
    + inversion H; subst. apply andb_true_intro.
      split; [apply IH; reflexivity | apply Z.eqb_refl].
  - intros n t IH b [n' t' b']; simpl; split; intros H.
    + apply andb_prop in H. destruct H as [H12 H3].
      apply andb_prop in H12. destruct H12 as [H1 H2].
      apply String.eqb_eq in H1. apply IH in H2.
      apply Bool.eqb_prop in H3. congruence.
    + inversion H; subst. rewrite String.eqb_refl, Bool.eqb_reflx.
      replace (pa.type_equals t' t') with true
        by (symmetry; apply IH; reflexivity).
      reflexivity.
Qed.

Lemma field_equals_eq (f g : pa.Field) : pa.field_equals f g = true <-> f = g.
Proof. apply type_equals_eq_mutual. Qed.

Lemma schema_equals_eq (s1 s2 : pa.Schema) :
  pa.schema_equals s1 s2 = true <-> s1 = s2.
Proof.
  revert s2. induction s1 as [| f s1 IH]; intros [| g s2]; simpl; split;
    intros H; try congruence; try discriminate.
  - apply andb_prop in H. destruct H as [H1 H2].
    apply field_equals_eq in H1. apply IH in H2. congruence.
  - inversion H; subst. apply andb_true_intro. split.
    + apply field_equals_eq. reflexivity.
    + apply IH. reflexivity.
Qed.





(** Without the argument the result is the schema for the configured
    default, so it does depend on the configuration. *)
Lemma default_dimension_comes_from_configuration (cfg1 cfg2 : Config) (s1 s2 : pa.Schema) :
  call_create_ai_documents_schema cfg1 None = Return s1 ->
  call_create_ai_documents_schema cfg2 None = Return s2 ->
  0 <= VECTOR_DIMENSIONS cfg1 ->
  0 <= VECTOR_DIMENSIONS cfg2 ->
  VECTOR_DIMENSIONS cfg1 <> VECTOR_DIMENSIONS cfg2 ->
  pa.schema_equals s1 s2 = false.
Proof.
  unfold call_create_ai_documents_schema. intros H1 H2 Hp1 Hp2 Hne.
  apply not_true_is_false. intros Heq. apply schema_equals_eq in Heq. subst s2.
  assert (Hb1 : VECTOR_DIMENSIONS cfg1 <= pa.INT_MAX).
  { destruct (Z.le_gt_cases (VECTOR_DIMENSIONS cfg1) pa.INT_MAX) as [? | Hgt];
      [assumption |].
    destruct (create_ai_documents_schema_overflows (VECTOR_DIMENSIONS cfg1))
      as [msg E]; [right; exact Hgt |].
    rewrite E in H1. discriminate H1. }
  assert (Hb2 : VECTOR_DIMENSIONS cfg2 <= pa.INT_MAX).
  { destruct (Z.le_gt_cases (VECTOR_DIMENSIONS cfg2) pa.INT_MAX) as [? | Hgt];
      [assumption |].
    destruct (create_ai_documents_schema_overflows (VECTOR_DIMENSIONS cfg2))
      as [msg E]; [right; exact Hgt |].
    rewrite E in H2. discriminate H2. }
  destruct (create_ai_documents_schema_returns (VECTOR_DIMENSIONS cfg1))
    as (t1 & Ht1 & _ & _ & Hv1 & _); [lia |].
  destruct (create_ai_documents_schema_returns (VECTOR_DIMENSIONS cfg2))
    as (t2 & Ht2 & _ & _ & Hv2 & _); [lia |].
  rewrite Ht1 in H1. rewrite Ht2 in H2.
  injection H1 as ->. injection H2 as ->.
  rewrite Hv1 in Hv2. congruence.
Qed.

(* ================================================================== *)
(** * Properties of the field validators *)
(* ================================================================== *)

Lemma append_assoc (a b c : string) : (a ++ b) ++ c = a ++ b ++ c.
Proof. induction a as [| x a IH]; simpl; [reflexivity | rewrite IH; reflexivity]. Qed.

Lemma mentions_here (pre part post : string) : mentions (pre ++ part ++ post) part.
Proof. exists pre, post. reflexivity. Qed.

Lemma mentions_first (part post : string) : mentions (part ++ post) part.
Proof. exists EmptyString, post. reflexivity. Qed.

Lemma mentions_last (pre part : string) : mentions (pre ++ part) part.
Proof.
  exists pre, EmptyString.
  replace (part ++ EmptyString) with part; [reflexivity |].
  induction part as [| x part IH]; simpl; [reflexivity | rewrite <- IH; reflexivity].
Qed.

Lemma mentions_after (a msg part : string) : mentions msg part -> mentions (a ++ msg) part.
Proof.
  intros (pre & post & E). exists (a ++ pre), post.
  rewrite E. symmetry. apply append_assoc.
Qed.

Lemma str_in_spec (x : string) (xs : list string) : str_in x xs = true <-> In x xs.
Proof.
  unfold str_in. rewrite existsb_exists. split.
  - intros (y & Hy & E). apply String.eqb_eq in E. subst y. exact Hy.
  - intros H. exists x. split; [exact H | apply String.eqb_refl].
Qed.

(** The text of the error [validate_enum_field] raises. *)
Lemma validate_enum_field_raises
    (value : string) (allowed_values : list string) (field_name : string) :
  ~ In value allowed_values ->
  validate_enum_field value allowed_values field_name =
  Raise (ValueError
    ("Invalid value '" ++ value ++ "' for " ++ field_name ++ ". " ++
     "Allowed values: " ++ str_list allowed_values)).
Proof.
  intros Hnot. unfold validate_enum_field.
  destruct (str_in value allowed_values) eqn:E; [| reflexivity].
  apply str_in_spec in E. contradiction.
Qed.

Lemma validate_enum_field_returns
    (value : string) (allowed_values : list string) (field_name : string) :
  In value allowed_values ->
  validate_enum_field value allowed_values field_name = Return value.
Proof.
  intros Hin. unfold validate_enum_field.
  apply str_in_spec in Hin. rewrite Hin. reflexivity.
Qed.

(** C3.  For every value, allowed-value list and field name,
    [validate_enum_field] returns the value unchanged if and only if the
    value is a member of the list; otherwise it raises the validation
    error ([ValueError], the design note's InvalidEnumValue) and the
    message names the field, the offending value and the allowed list. *)
Theorem validate_enum_field_contract
    (value : string) (allowed_values : list string) (field_name : string) :
  (validate_enum_field value allowed_values field_name = Return value <->
   In value allowed_values) /\
  (~ In value allowed_values ->
   exists msg,
     validate_enum_field value allowed_values field_name = Raise (ValueError msg) /\
     mentions msg field_name /\
     mentions msg value /\
     mentions msg (str_list allowed_values)).
Proof.
  split.
  - split.
    + intros H. destruct (in_dec string_dec value allowed_values) as [Hin | Hnot];
        [exact Hin |].
      rewrite validate_enum_field_raises in H by assumption. discriminate.
    + apply validate_enum_field_returns.
  - intros Hnot. eexists. split; [apply validate_enum_field_raises; assumption |].
    split; [| split].
    + do 3 apply mentions_after. apply mentions_first.
    + apply mentions_here.
    + do 5 apply mentions_after. apply mentions_last.
Qed.

Lemma validate_enum_field_contract_witness :
  ~ In "Bogus" ["Low"; "Medium"; "High"; "Critical"; "Unassessed"] /\
  exists msg,
    validate_enum_field "Bogus" ["Low"; "Medium"; "High"; "Critical"; "Unassessed"]
      "RiskLevel" = Raise (ValueError msg) /\
    mentions msg "RiskLevel" /\
    mentions msg "Bogus" /\
    mentions msg (str_list ["Low"; "Medium"; "High"; "Critical"; "Unassessed"]).
Proof.
  assert (Hnot : ~ In "Bogus" ["Low"; "Medium"; "High"; "Critical"; "Unassessed"]).
  { intros H. apply str_in_spec in H. discriminate H. }
  split; [exact Hnot |].
  exact (proj2 (validate_enum_field_contract "Bogus"
                  ["Low"; "Medium"; "High"; "Critical"; "Unassessed"] "RiskLevel")
               Hnot).
Defined.

Example validate_enum_field_error_text :
  validate_enum_field "Bogus" ["Low"; "High"] "RiskLevel" =
  Raise (ValueError
    "Invalid value 'Bogus' for RiskLevel. Allowed values: ['Low', 'High']").
Proof. reflexivity. Qed.

(** Every documented value of every enum field passes the validator. *)
Lemma documented_enum_values_pass :
  Forall
    (fun entry =>
       Forall (fun v => validate_enum_field v (snd entry) (fst entry) = Return v)
              (snd entry))
    ENUM_VALUES.
Proof.
  apply Forall_forall. intros [field allowed] _.
  apply Forall_forall. intros v Hv. simpl.
  apply validate_enum_field_returns. exact Hv.
Qed.

Section ScoreRangeProperties.

Variable float_repr : spec_float -> string.

Lemma lt_fin (a b : Num) (p q : Q) :
  Py.value a = Fin p -> Py.value b = Fin q ->
  (Py.lt a b = true <-> (p < q)%Q).
Proof.
  intros Ha Hb. unfold Py.lt. rewrite Ha, Hb.
  rewrite Qlt_alt. destruct (p ?= q)%Q; split; intros H; congruence.
Qed.

(** The text of the error [validate_score_range] raises. *)
Lemma validate_score_range_raises
    (value : Num) (field_name : string) (min_val max_val : Num) :
  Py.lt value min_val || Py.gt value max_val = true ->
  validate_score_range float_repr value field_name min_val max_val =
  Raise (ValueError
    ("Invalid value " ++ str_num float_repr value ++ " for " ++ field_name ++ ". " ++
     "Must be between " ++ str_num float_repr min_val ++
     " and " ++ str_num float_repr max_val)).
Proof. intros H. unfold validate_score_range. rewrite H. reflexivity. Qed.

Lemma validate_score_range_returns
    (value : Num) (field_name : string) (min_val max_val : Num) :
  Py.lt value min_val || Py.gt value max_val = false ->
  validate_score_range float_repr value field_name min_val max_val = Return value.
Proof. intros H. unfold validate_score_range. rewrite H. reflexivity. Qed.

(** With the default bounds the test of the validator fails exactly on
    the closed interval from 0 to 100 and on NaN. *)
Lemma default_range_test (value : Num) :
  Py.lt value (Int 0) || Py.gt value (Int 100) = false <->
  in_closed_interval 0 100 value \/ Py.value value = NaN.
Proof.
  unfold in_closed_interval, Py.gt.
  destruct (Py.value value) as [| | | q] eqn:E.
  - unfold Py.lt. rewrite E. simpl. tauto.
  - unfold Py.lt. rewrite E. simpl.
    split; [discriminate | intros [[] | H]; discriminate].
  - unfold Py.lt. rewrite E. simpl.
    split; [discriminate | intros [[] | H]; discriminate].
  - pose proof (lt_fin value (Int 0) q 0%Q E eq_refl) as Hlo.
    pose proof (lt_fin (Int 100) value 100%Q q eq_refl E) as Hhi.
    rewrite orb_false_iff. split.
    + intros [H1 H2]. left. split; apply Qnot_lt_le; intros H.
      * apply Hlo in H. congruence.
      * apply Hhi in H. congruence.
    + intros [[H1 H2] | H]; [| discriminate].
      split; apply not_true_is_false; intros H.
      * apply Hlo in H. exact (Qle_not_lt _ _ H1 H).
      * apply Hhi in H. exact (Qle_not_lt _ _ H2 H).
Qed.

(** C4 restricted to numbers other than NaN: the value is returned
    unchanged exactly when it lies in [0, 100], and otherwise the
    validation error ([ValueError], the design note's OutOfRange) names
    the field, the value and both bounds. *)
Lemma validate_score_range_default_contract (value : Num) (field_name : string) :
  Py.value value <> NaN ->
  (validate_score_range_default float_repr value field_name = Return value <->
   in_closed_interval 0 100 value) /\
  (~ in_closed_interval 0 100 value ->
   exists msg,
     validate_score_range_default float_repr value field_name =
       Raise (ValueError msg) /\
     mentions msg field_name /\
     mentions msg (str_num float_repr value) /\
     mentions msg "0" /\
     mentions msg "100").
Proof.
  intros Hnan. unfold validate_score_range_default.
  pose proof (default_range_test value) as T.
  destruct (Py.lt value (Int 0) || Py.gt value (Int 100)) eqn:E.
  - assert (Hout : ~ in_closed_interval 0 100 value).
    { intros H. assert (F : true = false) by (apply T; left; exact H).
      discriminate. }
    split.
    + rewrite validate_score_range_raises by exact E.
      split; [discriminate | contradiction].
    + intros _. eexists.
      split; [apply validate_score_range_raises; exact E |].
      repeat split.
      * do 2 apply mentions_after. apply mentions_here.
      * apply mentions_here.
      * do 5 apply mentions_after. apply mentions_here.
      * do 7 apply mentions_after. apply (mentions_last " and " "100").
  - assert (Hin : in_closed_interval 0 100 value).
    { destruct (proj1 T eq_refl) as [H | H]; [exact H | contradiction]. }
    split.
    + rewrite validate_score_range_returns by exact E. tauto.
    + contradiction.
Qed.

(** C4.  The value NaN is a float outside [0, 100], yet
    [validate_score_range] with the default bounds returns it unchanged
    instead of raising: neither [value < 0] nor [value > 100] holds
    for it. *)
Theorem validate_score_range_accepts_nan (field_name : string) :
  validate_score_range_default float_repr (Float S754_nan) field_name =
    Return (Float S754_nan) /\
  ~ in_closed_interval 0 100 (Float S754_nan).
Proof. split; [reflexivity | intros H; exact H]. Qed.

(** Boundary checks at 0, 100, -0.0001 and 100.0001. *)
Example score_0_accepted (field_name : string) :
  validate_score_range_default float_repr (Int 0) field_name = Return (Int 0).
Proof. reflexivity. Qed.

Example score_100_accepted (field_name : string) :
  validate_score_range_default float_repr (Int 100) field_name = Return (Int 100).
Proof. reflexivity. Qed.

Example score_100_0_accepted (field_name : string) :
  validate_score_range_default float_repr (Float float_100_0) field_name =
  Return (Float float_100_0).
Proof. reflexivity. Qed.

Example score_below_0_rejected (field_name : string) :
  exists msg,
    validate_score_range_default float_repr (Float float_minus_0_0001) field_name =
    Raise (ValueError msg).
Proof. eexists. reflexivity. Qed.

Example score_above_100_rejected (field_name : string) :
  exists msg,
    validate_score_range_default float_repr (Float float_100_0001) field_name =
    Raise (ValueError msg).
Proof. eexists. reflexivity. Qed.

Example score_infinity_rejected (field_name : string) (s : bool) :
  exists msg,
    validate_score_range_default float_repr (Float (S754_infinity s)) field_name =
    Raise (ValueError msg).
Proof. destruct s; eexists; reflexivity. Qed.

End ScoreRangeProperties.

Example validate_score_range_error_text :
  validate_score_range (fun _ => "?") (Int 101) "DataQualityScore" (Int 0) (Int 100) =
  Raise (ValueError
    "Invalid value 101 for DataQualityScore. Must be between 0 and 100").
Proof. reflexivity. Qed.

(* ================================================================== *)
(** * Properties of the UUID text *)
(* ================================================================== *)

Lemma hex_char_is_hex (d : Z) :
  0 <= d < 16 -> uuid.is_hex_digit (hex_char d) = true.
Proof.
  intros H.
  assert (C : d = 0 \/ d = 1 \/ d = 2 \/ d = 3 \/ d = 4 \/ d = 5 \/ d = 6 \/ d = 7 \/
              d = 8 \/ d = 9 \/ d = 10 \/ d = 11 \/ d = 12 \/ d = 13 \/ d = 14 \/
              d = 15) by lia.
  repeat (destruct C as [C | C]; [subst d; reflexivity |]).
  subst d. reflexivity.
Qed.

Lemma hex_digits_are_hex (fuel : nat) :
  forall (n : Z) (acc : list ascii),
    Forall (fun c => uuid.is_hex_digit c = true) acc ->
    Forall (fun c => uuid.is_hex_digit c = true) (uuid.hex_digits fuel n acc).
Proof.
  induction fuel as [| fuel IH]; intros n acc Hacc; simpl; [exact Hacc |].
  assert (Hacc' : Forall (fun c => uuid.is_hex_digit c = true)
                         (hex_char (n mod 16) :: acc)).
  { constructor; [| exact Hacc].
    apply hex_char_is_hex. apply Z.mod_pos_bound. lia. }
  destruct (n / 16 =? 0); [exact Hacc' | apply IH; exact Hacc'].
Qed.

Lemma hex_digits_length (fuel : nat) :
  forall (n : Z) (acc : list ascii) (k : nat),
    (1 <= k)%nat ->
    0 <= n < 16 ^ Z.of_nat k ->
    (List.length (uuid.hex_digits fuel n acc) <= k + List.length acc)%nat.
Proof.
  induction fuel as [| fuel IH]; intros n acc k Hk Hn; simpl; [lia |].
  destruct (Z.eqb_spec (n / 16) 0) as [E | E]; [simpl; lia |].
  assert (Hq : 0 <= n / 16) by (apply Z.div_pos; lia).
  destruct k as [| [| k]]; [lia | |].
  - (* one digit is enough, so the quotient is zero *)
    exfalso. apply E. apply Z.div_small. simpl in Hn. lia.
  - specialize (IH (n / 16) (hex_char (n mod 16) :: acc) (S k)).
    simpl List.length in IH.
    assert (Hlt : n / 16 < 16 ^ Z.of_nat (S k)).
    { apply Z.div_lt_upper_bound; [lia |].
      replace (Z.of_nat (S (S k))) with (Z.succ (Z.of_nat (S k))) in Hn by lia.
      rewrite Z.pow_succ_r in Hn by lia. lia. }
    assert (IH' := IH ltac:(lia) (conj Hq Hlt)). lia.
Qed.

(** ** The digits denote the number that was formatted *)

Lemma digit_value_hex_char (d : Z) :
  0 <= d < 16 -> uuid.digit_value (hex_char d) = d.
Proof.
  intros H.
  assert (C : d = 0 \/ d = 1 \/ d = 2 \/ d = 3 \/ d = 4 \/ d = 5 \/ d = 6 \/ d = 7 \/
              d = 8 \/ d = 9 \/ d = 10 \/ d = 11 \/ d = 12 \/ d = 13 \/ d = 14 \/
              d = 15) by lia.
  repeat (destruct C as [C | C]; [subst d; reflexivity |]).
  subst d. reflexivity.
Qed.

Lemma hex_fold_shift (ds : list ascii) :
  forall a,
    fold_left (fun a c => a * 16 + uuid.digit_value c) ds a =
    a * 16 ^ Z.of_nat (List.length ds) + uuid.hex_value ds.
Proof.
  unfold uuid.hex_value.
  induction ds as [| c ds IH]; intros a.
  - simpl. lia.
  - cbn [fold_left List.length].
    rewrite (IH (a * 16 + uuid.digit_value c)), (IH (0 * 16 + uuid.digit_value c)).
    replace (Z.of_nat (S (List.length ds)))
      with (Z.succ (Z.of_nat (List.length ds))) by lia.
    rewrite Z.pow_succ_r by lia. ring.
Qed.

Lemma hex_digits_value (fuel : nat) :
  forall (n : Z) (acc : list ascii),
    0 <= n < 2 ^ Z.of_nat fuel ->
    uuid.hex_value (uuid.hex_digits fuel n acc) =
    n * 16 ^ Z.of_nat (List.length acc) + uuid.hex_value acc.
Proof.
  induction fuel as [| fuel IH]; intros n acc Hn.
  - simpl in Hn. assert (n = 0) by lia. subst n. simpl. lia.
  - cbn [uuid.hex_digits].
    assert (Hv : uuid.hex_value (hex_char (n mod 16) :: acc) =
                 (n mod 16) * 16 ^ Z.of_nat (List.length acc) + uuid.hex_value acc).
    { unfold uuid.hex_value at 1. cbn [fold_left]. rewrite hex_fold_shift.
      rewrite digit_value_hex_char by (apply Z.mod_pos_bound; lia). lia. }
    pose proof (Z.div_mod n 16 ltac:(lia)) as Hdm.
    destruct (Z.eqb_spec (n / 16) 0) as [E | E].
    + rewrite Hv. rewrite E in Hdm. replace (n mod 16) with n by lia. reflexivity.
    + rewrite IH.
      * rewrite Hv. cbn [List.length].
        replace (Z.of_nat (S (List.length acc)))
          with (Z.succ (Z.of_nat (List.length acc))) by lia.
        rewrite Z.pow_succ_r by lia.
        rewrite Hdm at 3. ring.
      * split; [apply Z.div_pos; lia |].
        apply Z.div_lt_upper_bound; [lia |].
        replace (Z.of_nat (S fuel)) with (Z.succ (Z.of_nat fuel)) in Hn by lia.
        rewrite Z.pow_succ_r in Hn by lia.
        assert (0 < 2 ^ Z.of_nat fuel) by (apply Z.pow_pos_nonneg; lia). lia.
Qed.

Lemma format_x_value (n : Z) : 0 <= n -> uuid.hex_value (uuid.format_x n) = n.
Proof.
  intros Hn. unfold uuid.format_x. rewrite hex_digits_value.
  - change (Z.of_nat (List.length (@nil ascii))) with 0.
    change (uuid.hex_value []) with 0. rewrite Z.pow_0_r. lia.
  - split; [exact Hn |].
    destruct (Z.eq_dec n 0) as [-> | Hne]; [reflexivity |].
    replace (Z.of_nat (S (Z.to_nat (Z.log2 n)))) with (Z.succ (Z.log2 n))
      by (pose proof (Z.log2_nonneg n); lia).
    apply Z.log2_spec. lia.
Qed.

Lemma format_032x_value (n : Z) : 0 <= n -> uuid.hex_value (uuid.format_032x n) = n.
Proof.
  intros Hn. unfold uuid.format_032x.
  unfold uuid.hex_value. rewrite fold_left_app.
  assert (Z0 : forall k,
             fold_left (fun a c => a * 16 + uuid.digit_value c)
                       (repeat "0"%char k) 0 = 0).
  { induction k as [| k IH]; [reflexivity | exact IH]. }
  rewrite Z0. apply format_x_value. exact Hn.
Qed.

(** ** Shape of the formatted digits *)

Lemma format_032x_shape (n : Z) :
  0 <= n < 2 ^ 128 ->
  List.length (uuid.format_032x n) = 32%nat /\
  Forall (fun c => uuid.is_hex_digit c = true) (uuid.format_032x n).
Proof.
  intros Hn. unfold uuid.format_032x, uuid.format_x.
  set (ds := uuid.hex_digits _ n []).
  assert (Hlen : (List.length ds <= 32)%nat).
  { pose proof (hex_digits_length (S (Z.to_nat (Z.log2 n))) n [] 32) as H.
    simpl List.length in H. rewrite Nat.add_0_r in H. apply H; [lia |].
    change (16 ^ Z.of_nat 32) with (2 ^ 128). exact Hn. }
  split.
  - rewrite length_app, repeat_length. lia.
  - apply Forall_app. split.
    + apply Forall_forall. intros c Hc. apply repeat_spec in Hc. subst c. reflexivity.
    + apply hex_digits_are_hex. constructor.
Qed.

(** A list of 32 characters laid out in groups of 8, 4, 4, 4 and 12 is in
    canonical form as soon as each character is a hexadecimal digit. *)
Lemma grouped_digits_canonical (hex : list ascii) :
  List.length hex = 32%nat ->
  Forall (fun c => uuid.is_hex_digit c = true) hex ->
  uuid.canonical_format
    (string_of_list_ascii
       (uuid.slice 0 8 hex ++ "-"%char :: uuid.slice 8 12 hex ++ "-"%char ::
        uuid.slice 12 16 hex ++ "-"%char :: uuid.slice 16 20 hex ++ "-"%char ::
        skipn 20 hex)) = true.
Proof.
  intros Hlen Hhex. unfold uuid.canonical_format.
  rewrite list_ascii_of_string_of_list_ascii.
  generalize dependent uuid.is_hex_digit. intros P Hhex.
  do 32 (destruct hex as [| ? hex]; [discriminate Hlen |]).
  destruct hex; [| discriminate Hlen].
  repeat match goal with
         | H : Forall _ (_ :: _) |- _ => inversion H; subst; clear H
         end.
  cbn.
  repeat match goal with
         | H : P _ = true |- _ => rewrite H; clear H
         end.
  reflexivity.
Qed.

Lemma str_canonical (u : uuid.UUID) :
  0 <= uuid.int u < 2 ^ 128 -> uuid.canonical_format (uuid.str u) = true.
Proof.
  intros Hu. unfold uuid.str.
  destruct (format_032x_shape (uuid.int u) Hu) as [Hlen Hhex].
  apply grouped_digits_canonical; assumption.
Qed.

(** ** The 128-bit range of a version-4 UUID *)

Lemma int_from_bytes_bound (bs : list Byte.byte) :
  forall acc,
    0 <= acc ->
    0 <= fold_left (fun a b => a * 256 + Z.of_N (Byte.to_N b)) bs acc
      < (acc + 1) * 256 ^ Z.of_nat (List.length bs).
Proof.
  induction bs as [| b bs IH]; intros acc Hacc.
  - simpl. lia.
  - cbn [fold_left List.length].
    pose proof (Byte.to_N_bounded b) as Hb.
    assert (Hb' : 0 <= Z.of_N (Byte.to_N b) <= 255) by lia.
    specialize (IH (acc * 256 + Z.of_N (Byte.to_N b)) ltac:(lia)).
    replace (Z.of_nat (S (List.length bs)))
      with (Z.succ (Z.of_nat (List.length bs))) by lia.
    rewrite Z.pow_succ_r by lia.
    assert (Hp : 0 < 256 ^ Z.of_nat (List.length bs)) by (apply Z.pow_pos_nonneg; lia).
    split; [lia |].
    eapply Z.lt_le_trans; [apply IH |]. nia.
Qed.

Lemma high_bits_clear (x k i : Z) :
  0 <= x < 2 ^ k -> 0 <= k <= i -> Z.testbit x i = false.
Proof.
  intros Hx Hk. rewrite <- (Z.mod_small x (2 ^ k)) by exact Hx.
  apply Z.mod_pow2_bits_high. exact Hk.
Qed.

Lemma bounded_by_bits (x k : Z) :
  0 <= k ->
  (forall i, k <= i -> Z.testbit x i = false) ->
  0 <= x < 2 ^ k.
Proof.
  intros Hk Hbits.
  assert (E : x = Z.land x (Z.ones k)).
  { apply Z.bits_inj'. intros i Hi. rewrite Z.land_spec.
    destruct (Z.lt_ge_cases i k) as [L | G].
    - rewrite Z.ones_spec_low by lia. rewrite andb_true_r. reflexivity.
    - rewrite Hbits by exact G. reflexivity. }
  rewrite Z.land_ones in E by exact Hk.
  rewrite E. apply Z.mod_pos_bound. apply Z.pow_pos_nonneg; lia.
Qed.

Lemma UUID_of_bytes_range (bs : list Byte.byte) :
  List.length bs = 16%nat ->
  0 <= uuid.int (uuid.UUID_of_bytes bs 4) < 2 ^ 128.
Proof.
  intros Hlen. unfold uuid.UUID_of_bytes. cbn [uuid.int].
  assert (Hb : 0 <= uuid.int_from_bytes bs < 2 ^ 128).
  { pose proof (int_from_bytes_bound bs 0 ltac:(lia)) as H.
    rewrite Hlen in H. exact H. }
  apply bounded_by_bits; [lia |].
  intros i Hi.
  rewrite Z.lor_spec, Z.land_spec, Z.lor_spec, Z.land_spec.
  rewrite (high_bits_clear (uuid.int_from_bytes bs) 128 i Hb) by lia.
  rewrite (high_bits_clear (Z.shiftl 0x8000 48) 128 i) by (simpl; lia).
  rewrite (high_bits_clear (Z.shiftl 4 76) 128 i) by (simpl; lia).
  reflexivity.
Qed.

Lemma urandom_length (n : nat) (w : Sys.World) :
  List.length (fst (Sys.urandom n w)) = n.
Proof. unfold Sys.urandom. cbn [fst]. rewrite length_map, length_seq. reflexivity. Qed.

(** Whatever the random source delivers, [generate_uuid] returns a string
    in canonical UUID form. *)
Lemma generate_uuid_canonical (w : Sys.World) :
  uuid.canonical_format (fst (generate_uuid w)) = true.
Proof.
  unfold generate_uuid, uuid.uuid4, Sys.bind, Sys.ret.
  pose proof (urandom_length 16 w) as Hlen.
  destruct (Sys.urandom 16 w) as [bs w1]. cbn [fst] in *.
  apply str_canonical. apply UUID_of_bytes_range. exact Hlen.
Qed.

Example uuid4_of_zero_bytes :
  uuid.str (uuid.UUID_of_bytes (repeat x00 16) 4) =
  "00000000-0000-4000-8000-000000000000".
Proof. vm_compute. reflexivity. Qed.

Example uuid4_of_ff_bytes :
  uuid.str (uuid.UUID_of_bytes (repeat xff 16) 4) =
  "ffffffff-ffff-4fff-bfff-ffffffffffff".
Proof. vm_compute. reflexivity. Qed.

Example generate_uuid_sample :
  fst (generate_uuid sample_world) = "03142536-4758-497a-8b9c-adbecfe0f100".
Proof. vm_compute. reflexivity. Qed.

(* ================================================================== *)
(** * Properties of the record builder *)
(* ================================================================== *)

(** Run the two impure steps of the builder in world [w], keeping the
    timestamp and the UUID text abstract. *)
Ltac run_builder w :=
  unfold example_record, create_example_record, get_current_timestamp,
    Sys.bind, Sys.ret;
  cbv beta;
  let now := fresh "now" in
  let w1 := fresh "w" in
  let u := fresh "u" in
  let w2 := fresh "w" in
  destruct (Sys.datetime_now_utc w) as [now w1];
  destruct (generate_uuid w1) as [u w2];
  cbn [fst].

Section RecordBuilder.

Variable w : Sys.World.
Variables insert_user document_name chunk_text : string.

(** The record has one entry per column, in schema order. *)
Lemma example_record_keys
    (embedding_vector : option (list Num)) (vastdb_rowid : option Z) :
  Py.keys (example_record w insert_user document_name chunk_text
             embedding_vector vastdb_rowid) = COLUMN_NAMES.
Proof. run_builder w. reflexivity. Qed.

(** Slots 02 to 05 are null whatever the inputs. *)
Lemma other_slots_null
    (embedding_vector : option (list Num)) (vastdb_rowid : option Z) :
  Forall
    (slot_is_null (example_record w insert_user document_name chunk_text
                     embedding_vector vastdb_rowid))
    ["02"; "03"; "04"; "05"].
Proof. run_builder w. repeat constructor. Qed.

(** C2, as amended.  For every supplied embedding vector that is not
    empty, the record has [DocumentEmbeddingModel01] set to the
    placeholder "example-model", [DocumentEmbeddingVectors01] equal to the
    supplied vector, and the model, URL and vector of provider slots 02
    to 05 all null. *)
Theorem nonempty_vector_fills_slot_01
    (vector : list Num) (vastdb_rowid : option Z) :
  vector <> [] ->
  let r := example_record w insert_user document_name chunk_text
             (Some vector) vastdb_rowid in
  Py.get r "DocumentEmbeddingModel01" = Some (VStr "example-model") /\
  Py.get r "DocumentEmbeddingVectors01" = Some (VList vector) /\
  Forall (slot_is_null r) ["02"; "03"; "04"; "05"].
Proof.
  intros Hne r. split; [| split].
  - subst r. destruct vector as [| x l]; [contradiction |].
    run_builder w. reflexivity.
  - subst r. run_builder w. reflexivity.
  - apply other_slots_null.
Qed.

(** C10.  When the supplied embedding vector is the empty list, the
    record has [DocumentEmbeddingVectors01] equal to the empty list and
    [DocumentEmbeddingModel01] null; and whenever the record carries the
    placeholder model name, the supplied vector was a non-empty list. *)
Theorem empty_vector_leaves_model_null (vastdb_rowid : option Z) :
  (let r := example_record w insert_user document_name chunk_text
              (Some []) vastdb_rowid in
   Py.get r "DocumentEmbeddingVectors01" = Some (VList []) /\
   Py.get r "DocumentEmbeddingModel01" = Some VNone) /\
  (forall embedding_vector,
     Py.get (example_record w insert_user document_name chunk_text
               embedding_vector vastdb_rowid) "DocumentEmbeddingModel01" =
       Some (VStr "example-model") ->
     exists x l, embedding_vector = Some (x :: l)).
Proof.
  split.
  - cbv zeta. run_builder w. split; reflexivity.
  - intros ev. run_builder w. destruct ev as [[| x l] |]; cbn; intros H.
    + discriminate H.
    + exists x, l. reflexivity.
    + discriminate H.
Qed.

(** C6.  A record built without a row identifier has [vastdb_rowid]
    null, and a record built with a row identifier not exceeding
    [2^48 - 1] carries that identifier unchanged in [vastdb_rowid]. *)
Theorem vastdb_rowid_modes (embedding_vector : option (list Num)) :
  Py.get (example_record w insert_user document_name chunk_text
            embedding_vector None) "vastdb_rowid" = Some VNone /\
  (forall rowid,
     rowid <= 2 ^ 48 - 1 ->
     Py.get (example_record w insert_user document_name chunk_text
               embedding_vector (Some rowid)) "vastdb_rowid" =
       Some (VInt rowid)).
Proof.
  split.
  - run_builder w. reflexivity.
  - intros rowid _. run_builder w. reflexivity.
Qed.

(** C9.  For every input, each field listed in [ENUM_VALUES] is, in the
    record [create_example_record] returns, either null or a member of the
    allowed values declared for that field, so that [validate_enum_field]
    returns it unchanged. *)
Theorem example_record_enums_valid
    (embedding_vector : option (list Num)) (vastdb_rowid : option Z) :
  Forall
    (enum_field_valid (example_record w insert_user document_name chunk_text
                         embedding_vector vastdb_rowid))
    ENUM_VALUES.
Proof.
  set (r := example_record _ _ _ _ _ _).
  assert (Hb : forallb (enum_field_validb r) ENUM_VALUES = true).
  { subst r. run_builder w. reflexivity. }
  rewrite forallb_forall in Hb. apply Forall_forall. intros entry Hin.
  specialize (Hb entry Hin). unfold enum_field_validb in Hb.
  unfold enum_field_valid.
  destruct (Py.get r (fst entry)) as [[| | | s | |] |];
    try discriminate Hb; [left; reflexivity |].
  apply str_in_spec in Hb.
  right. exists s. split; [reflexivity |]. split; [exact Hb |].
  apply validate_enum_field_returns. exact Hb.
Qed.

End RecordBuilder.

(** C5.  For user "alice", document "doc.pdf" and chunk text "hello", with
    no embedding vector and no row identifier, the record has
    [ContainsPII] false, [DocumentStatus] "Active", [DocumentChunkNumber] 1,
    [DocumentEmbeddingVectors01] null, and a [UUID] that is a string in
    canonical UUID form, in whatever state the clock and the random source
    are. *)
Theorem alice_record (w : Sys.World) :
  let r := example_record w "alice" "doc.pdf" "hello" None None in
  Py.get r "ContainsPII" = Some (VBool false) /\
  Py.get r "DocumentStatus" = Some (VStr "Active") /\
  Py.get r "DocumentChunkNumber" = Some (VInt 1) /\
  Py.get r "DocumentEmbeddingVectors01" = Some VNone /\
  exists u, Py.get r "UUID" = Some (VStr u) /\ uuid.canonical_format u = true.
Proof.
  cbv zeta.
  unfold example_record, create_example_record, get_current_timestamp,
    Sys.bind, Sys.ret.
  cbv beta.
  destruct (Sys.datetime_now_utc w) as [now w1].
  pose proof (generate_uuid_canonical w1) as Hcanonical.
  destruct (generate_uuid w1) as [u w2]. cbn [fst] in Hcanonical |- *.
  repeat split; try reflexivity.
  exists u. split; [reflexivity | exact Hcanonical].
Qed.

(** C2, as stated, fails on the empty vector: the model name of slot 01
    stays null although a vector was supplied. *)
Lemma empty_vector_has_no_model_name :
  Py.get (example_record sample_world "alice" "doc.pdf" "hello" (Some []) None)
    "DocumentEmbeddingModel01" = Some VNone /\
  Py.get (example_record sample_world "alice" "doc.pdf" "hello" (Some []) None)
    "DocumentEmbeddingModel01" <> Some (VStr "example-model").
Proof.
  assert (E : Py.get
                (example_record sample_world "alice" "doc.pdf" "hello" (Some []) None)
                "DocumentEmbeddingModel01" = Some VNone)
    by (vm_compute; reflexivity).
  split; [exact E | rewrite E; discriminate].
Qed.

Lemma nonempty_vector_fills_slot_01_witness :
  [Float float_100_0; Int 1] <> [] /\
  let r := example_record sample_world "alice" "doc.pdf" "hello"
             (Some [Float float_100_0; Int 1]) None in
  Py.get r "DocumentEmbeddingModel01" = Some (VStr "example-model") /\
  Py.get r "DocumentEmbeddingVectors01" = Some (VList [Float float_100_0; Int 1]) /\
  Forall (slot_is_null r) ["02"; "03"; "04"; "05"].
Proof.
  assert (Hne : [Float float_100_0; Int 1] <> []) by discriminate.
  split; [exact Hne |].
  exact (nonempty_vector_fills_slot_01 sample_world "alice" "doc.pdf" "hello"
           [Float float_100_0; Int 1] None Hne).
Defined.

Lemma empty_vector_leaves_model_null_witness :
  Py.get (example_record sample_world "alice" "doc.pdf" "hello"
            (Some [Int 1]) None) "DocumentEmbeddingModel01" =
    Some (VStr "example-model") /\
  exists x l, Some [Int 1] = Some (x :: l).
Proof.
  assert (H : Py.get (example_record sample_world "alice" "doc.pdf" "hello"
                        (Some [Int 1]) None) "DocumentEmbeddingModel01" =
              Some (VStr "example-model")) by (vm_compute; reflexivity).
  split; [exact H |].
  exact (proj2 (empty_vector_leaves_model_null sample_world "alice" "doc.pdf"
                  "hello" None) (Some [Int 1]) H).
Defined.

Lemma vastdb_rowid_modes_witness :
  1000001 <= 2 ^ 48 - 1 /\
  Py.get (example_record sample_world "pipeline" "doc.pdf" "content..."
            None (Some 1000001)) "vastdb_rowid" = Some (VInt 1000001).
Proof.
  assert (H : 1000001 <= 2 ^ 48 - 1) by (vm_compute; discriminate).
  split; [exact H |].
  exact (proj2 (vastdb_rowid_modes sample_world "pipeline" "doc.pdf" "content..."
                  None) 1000001 H).
Defined.

(* ================================================================== *)
(** * Further properties of the schema builder *)
(* ================================================================== *)

Lemma schema_for_minus_one :
  exists s,
    create_ai_documents_schema (-1) = Return s /\
    List.length s = 65%nat /\
    pa.names s = COLUMN_NAMES /\
    vector_columns s = map (fun n => (n, None)) VECTOR_COLUMN_NAMES /\
    Forall (fun f => pa.nullable f = true) s.
Proof.
  eexists. split; [reflexivity |].
  repeat split; try reflexivity. repeat constructor.
Qed.

(** What a returned schema looks like, whatever the dimension was. *)
Lemma returned_schema_shape (N : Z) (s : pa.Schema) :
  create_ai_documents_schema N = Return s ->
  -1 <= N <= pa.INT_MAX /\
  List.length s = 65%nat /\
  pa.names s = COLUMN_NAMES /\
  vector_columns s =
    map (fun n => (n, if N =? -1 then None else Some N)) VECTOR_COLUMN_NAMES /\
  Forall (fun f => pa.nullable f = true) s.
Proof.
  intros Hs.
  destruct (Z.lt_ge_cases N (-1)) as [Hlt | Hge].
  { destruct (create_ai_documents_schema_refuses N Hlt) as [e He].
    rewrite He in Hs. discriminate. }
  destruct (Z.le_gt_cases N pa.INT_MAX) as [Hle | Hgt].
  2: { destruct (create_ai_documents_schema_overflows N) as [msg He];
         [right; exact Hgt |].
       rewrite He in Hs. discriminate. }
  split; [split; assumption |].
  destruct (Z.eq_dec N (-1)) as [-> | Hne].
  - destruct schema_for_minus_one as (s' & Hs' & H).
    rewrite Hs' in Hs. injection Hs as <-. exact H.
  - destruct (create_ai_documents_schema_returns N) as (s' & Hs' & H1 & H2 & H3 & H4);
      [lia |].
    rewrite Hs' in Hs. injection Hs as <-.
    replace (N =? -1) with false by (symmetry; apply Z.eqb_neq; exact Hne).
    auto.
Qed.

(** A negative dimension other than [-1] that fits a C [int] meets the
    error of [pa.list_]. *)
Lemma create_ai_documents_schema_raises (N : Z) :
  pa.INT_MIN <= N < -1 ->
  create_ai_documents_schema N =
  Raise (ValueError "list_size should be a positive integer").
Proof.
  intros HN.
  unfold create_ai_documents_schema, create_vector_field, pa.list_.
  rewrite as_c_int_fits by (unfold pa.INT_MIN, pa.INT_MAX in *; lia).
  cbn [Py.bind].
  destruct (Z.eqb_spec N (-1)) as [? | _]; [lia |].
  destruct (Z.ltb_spec N 0) as [_ | ?]; [| lia].
  reflexivity.
Qed.

(** Every dimension below [-1] or above the largest C [int] is refused. *)
Lemma create_ai_documents_schema_rejects (N : Z) :
  N < -1 \/ pa.INT_MAX < N ->
  exists e, create_ai_documents_schema N = Raise e.
Proof.
  intros [Hlt | Hgt].
  - apply create_ai_documents_schema_refuses. exact Hlt.
  - destruct (create_ai_documents_schema_overflows N) as [msg E];
      [right; exact Hgt | eauto].
Qed.

(** X1.  The builder validates nothing itself; what PyArrow accepts
    decides.  Dimension [0] is accepted and gives fixed-size lists of
    length 0; dimension [-1] is accepted and gives variable-length list
    columns; any other negative dimension that fits a C [int] fails with
    the [ValueError] of [pa.list_]; and a dimension that does not fit a C
    [int] (above [2^31 - 1] or below [-2^31]) fails with
    [OverflowError]. *)
Theorem schema_builder_by_dimension (N : Z) :
  match create_ai_documents_schema N with
  | Return s =>
      -1 <= N <= 2 ^ 31 - 1 /\
      vector_columns s =
        map (fun n => (n, if N =? -1 then None else Some N)) VECTOR_COLUMN_NAMES
  | Raise (ValueError msg) =>
      - 2 ^ 31 <= N < -1 /\ msg = "list_size should be a positive integer"
  | Raise (OverflowError _) =>
      N < - 2 ^ 31 \/ 2 ^ 31 - 1 < N
  end.
Proof.
  destruct (Z.lt_ge_cases N pa.INT_MIN) as [Hlow | Hlow].
  { destruct (create_ai_documents_schema_overflows N) as [msg E];
      [left; exact Hlow |].
    rewrite E. left. exact Hlow. }
  destruct (Z.le_gt_cases N pa.INT_MAX) as [Hhigh | Hhigh].
  2: { destruct (create_ai_documents_schema_overflows N) as [msg E];
         [right; exact Hhigh |].
       rewrite E. right. exact Hhigh. }
  destruct (Z.lt_ge_cases N (-1)) as [Hlt | Hge].
  { rewrite create_ai_documents_schema_raises by lia.
    split; [split; [exact Hlow | exact Hlt] | reflexivity]. }
  destruct (create_ai_documents_schema N) as [s | e] eqn:E.
  - destruct (returned_schema_shape N s E) as (H1 & _ & _ & H4 & _).
    split; [exact H1 | exact H4].
  - exfalso. destruct (Z.eq_dec N (-1)) as [-> | Hne].
    + destruct schema_for_minus_one as (s & Hs & _). congruence.
    + destruct (create_ai_documents_schema_returns N) as (s & Hs & _); [lia |].
      congruence.
Qed.

(** X2.  In every schema the builder returns, all 65 columns are nullable
    and no two columns share a name. *)
Theorem returned_schema_nullable_distinct (N : Z) (s : pa.Schema) :
  create_ai_documents_schema N = Return s ->
  Forall (fun f => pa.nullable f = true) s /\ NoDup (pa.names s).
Proof.
  intros Hs. destruct (returned_schema_shape N s Hs) as (_ & _ & Hn & _ & Hnull).
  split; [exact Hnull |]. rewrite Hn. apply column_names_distinct.
Qed.

Lemma returned_schema_nullable_distinct_witness :
  exists s,
    create_ai_documents_schema 1024 = Return s /\
    Forall (fun f => pa.nullable f = true) s /\ NoDup (pa.names s).
Proof.
  eexists. split; [reflexivity |].
  apply (returned_schema_nullable_distinct 1024). reflexivity.
Defined.

(** X3.  The dimension can be read back from the schema: two calls whose
    schemas pass [Schema.equals] were given the same dimension. *)
Theorem schema_determines_dimension (N M : Z) (s t : pa.Schema) :
  create_ai_documents_schema N = Return s ->
  create_ai_documents_schema M = Return t ->
  pa.schema_equals s t = true ->
  N = M.
Proof.
  intros Hs Ht Heq. apply schema_equals_eq in Heq. subst t.
  destruct (returned_schema_shape N s Hs) as (HN & _ & _ & Hv & _).
  destruct (returned_schema_shape M s Ht) as (HM & _ & _ & Hv' & _).
  rewrite Hv in Hv'. cbn in Hv'.
  destruct (Z.eqb_spec N (-1)), (Z.eqb_spec M (-1)); congruence.
Qed.

Lemma schema_determines_dimension_witness :
  exists s t,
    create_ai_documents_schema 384 = Return s /\
    create_ai_documents_schema 384 = Return t /\
    pa.schema_equals s t = true /\ 384 = 384.
Proof.
  eexists. eexists.
  split; [reflexivity |]. split; [reflexivity |].
  assert (E : pa.schema_equals
                match create_ai_documents_schema 384 with Return s => s | Raise _ => [] end
                match create_ai_documents_schema 384 with Return s => s | Raise _ => [] end
              = true) by (vm_compute; reflexivity).
  split; [exact E |].
  exact (schema_determines_dimension 384 384 _ _ eq_refl eq_refl E).
Defined.

(** The columns that are not list-typed, for any dimension. *)
Lemma scalar_columns_fixed (K : Z) (u : pa.Schema) :
  create_ai_documents_schema K = Return u ->
  scalar_columns u =
  scalar_columns
    match create_ai_documents_schema 0 with Return v => v | Raise _ => [] end.
Proof.
  intros Hu.
  destruct (returned_schema_shape K u Hu) as (HK & _).
  destruct (Z.eq_dec K (-1)) as [-> | Hne].
  - vm_compute in Hu. injection Hu as <-. vm_compute. reflexivity.
  - unfold create_ai_documents_schema in Hu.
    rewrite !create_vector_field_fixed in Hu by lia.
    cbn [Py.bind] in Hu. injection Hu as <-. vm_compute. reflexivity.
Qed.

(** X4.  The dimension only touches the five vector columns: the other 60
    columns are the same for every dimension. *)
Theorem scalar_columns_do_not_depend_on_dimension (N M : Z) (s t : pa.Schema) :
  create_ai_documents_schema N = Return s ->
  create_ai_documents_schema M = Return t ->
  scalar_columns s = scalar_columns t /\ List.length (scalar_columns s) = 60%nat.
Proof.
  intros Hs Ht.
  rewrite (scalar_columns_fixed N s Hs), (scalar_columns_fixed M t Ht).
  split; [reflexivity | vm_compute; reflexivity].
Qed.

Lemma scalar_columns_do_not_depend_on_dimension_witness :
  exists s t,
    create_ai_documents_schema 384 = Return s /\
    create_ai_documents_schema 1536 = Return t /\
    scalar_columns s = scalar_columns t /\
    List.length (scalar_columns s) = 60%nat.
Proof.
  eexists. eexists.
  split; [reflexivity |]. split; [reflexivity |].
  apply (scalar_columns_do_not_depend_on_dimension 384 1536); reflexivity.
Defined.

(** X5.  Every field that [ENUM_VALUES] constrains is a column of type
    string in the schema, and [ENUM_VALUES] names each field once. *)
Theorem enum_fields_are_string_columns (N : Z) (s : pa.Schema) :
  create_ai_documents_schema N = Return s ->
  Forall (fun entry => In (pa.field (fst entry) pa.string) s) ENUM_VALUES /\
  NoDup (map fst ENUM_VALUES).
Proof.
  intros Hs.
  assert (Hsub : forall f, In f (scalar_columns s) -> In f s).
  { intros f Hf. unfold scalar_columns in Hf. apply filter_In in Hf. tauto. }
  pose proof (scalar_columns_fixed N s Hs) as E.
  split.
  - assert (Hb : forallb
                   (fun entry =>
                      existsb (pa.field_equals (pa.field (fst entry) pa.string))
                        (scalar_columns
                           match create_ai_documents_schema 0 with
                           | Return v => v
                           | Raise _ => []
                           end))
                   ENUM_VALUES = true) by (vm_compute; reflexivity).
    rewrite forallb_forall in Hb. apply Forall_forall. intros entry Hentry.
    specialize (Hb entry Hentry). apply existsb_exists in Hb.
    destruct Hb as (f & Hf & Hfe). apply field_equals_eq in Hfe. subst f.
    apply Hsub. rewrite E. exact Hf.
  - assert (Hk : nodup string_dec (map fst ENUM_VALUES) = map fst ENUM_VALUES)
      by (vm_compute; reflexivity).
    rewrite <- Hk. apply NoDup_nodup.
Qed.

Lemma enum_fields_are_string_columns_witness :
  exists s,
    create_ai_documents_schema 1024 = Return s /\
    Forall (fun entry => In (pa.field (fst entry) pa.string) s) ENUM_VALUES /\
    NoDup (map fst ENUM_VALUES).
Proof.
  eexists. split; [reflexivity |].
  apply (enum_fields_are_string_columns 1024). reflexivity.
Defined.

(* ================================================================== *)
(** * Further properties of the record builder *)
(* ================================================================== *)

(** The builder with its two impure steps run, the dictionary display
    evaluated. *)
Ltac run_builder_display w :=
  run_builder w;
  match goal with
  | |- context [Py.dict ?items] =>
      let d := fresh "d" in
      set (d := Py.dict items); vm_compute in d; subst d
  end.

Lemma record_fits_spec (s : pa.Schema) :
  forall d,
    record_fits s d = true <-> Forall2 (fun f kv => entry_fits f kv = true) s d.
Proof.
  induction s as [| f s IH]; intros [| kv d]; simpl; split; intros H;
    try discriminate; try constructor; try (inversion H; fail).
  - apply andb_prop in H. tauto.
  - apply andb_prop in H. apply IH. tauto.
  - inversion H; subst. apply andb_true_intro. split; [assumption |].
    apply IH. assumption.
Qed.

Lemma record_conforms_spec (s : pa.Schema) :
  forall d,
    record_conforms s d = true <->
    Forall2 (fun f kv => entry_conforms f kv = true) s d.
Proof.
  induction s as [| f s IH]; intros [| kv d]; simpl; split; intros H;
    try discriminate; try constructor; try (inversion H; fail).
  - apply andb_prop in H. tauto.
  - apply andb_prop in H. apply IH. tauto.
  - inversion H; subst. apply andb_true_intro. split; [assumption |].
    apply IH. assumption.
Qed.

Section RecordAndSchema.

Variable w : Sys.World.
Variables insert_user document_name chunk_text : string.

(** X6.  A record built with no vector, or with a vector of exactly [N]
    numbers each of which a float32 holds (any float, or an int of
    magnitude at most [2^24]), and with no row identifier or one that is a
    64-bit integer, conforms to the schema built for dimension [N]: it has
    the 65 column names in schema order, and every entry is null or a value
    of its column's type, element by element for the vector. *)
Theorem example_record_conforms_to_schema
    (N : Z) (s : pa.Schema)
    (embedding_vector : option (list Num)) (vastdb_rowid : option Z) :
  create_ai_documents_schema N = Return s ->
  0 <= N ->
  match embedding_vector with
  | Some l =>
      Z.of_nat (List.length l) = N /\
      Forall (fun x => number_fits pa.float32 x = true) l
  | None => True
  end ->
  match vastdb_rowid with
  | Some z => - 2 ^ 63 <= z < 2 ^ 63
  | None => True
  end ->
  record_conforms s
    (example_record w insert_user document_name chunk_text
       embedding_vector vastdb_rowid) = true.
Proof.
  intros Hs HN Hvec Hrow.
  destruct (returned_schema_shape N s Hs) as ([_ Hmax] & _).
  unfold create_ai_documents_schema in Hs.
  rewrite !create_vector_field_fixed in Hs by (split; assumption).
  cbn [Py.bind] in Hs. injection Hs as <-.
  apply record_conforms_spec.
  assert (Hr : forall z, - 2 ^ 63 <= z < 2 ^ 63 -> in_int_range 64 z = true).
  { intros z Hz. unfold in_int_range. apply andb_true_intro.
    split; [apply Z.leb_le | apply Z.ltb_lt]; simpl; lia. }
  destruct embedding_vector as [l |], vastdb_rowid as [z |];
    run_builder_display w;
    repeat constructor;
    try reflexivity;
    try (cbn; apply Hr; exact Hrow);
    try (destruct l; reflexivity);
    (unfold entry_conforms, value_conforms;
     cbn [fst snd pa.name pa.type pa.nullable];
     rewrite String.eqb_refl; cbn [andb];
     apply andb_true_intro;
     split; [apply Z.eqb_eq; apply Hvec
            | apply forallb_forall; apply Forall_forall; apply Hvec]).
Qed.

(** An int that a float32 does not hold exactly does not conform, although
    the builder stores it. *)
Example int_beyond_float32_does_not_conform :
  value_conforms (pa.FixedSizeListType (pa.mkField "item" pa.float32 false) 1)
    (VList [Int 16777217]) = false.
Proof. reflexivity. Qed.

(** X7.  The builder does not compare the vector with the table's
    dimension: a vector of another length is stored all the same, and the
    record then does not fit the schema. *)
Theorem wrong_length_vector_is_stored
    (N : Z) (s : pa.Schema) (vector : list Num) (vastdb_rowid : option Z) :
  create_ai_documents_schema N = Return s ->
  0 <= N ->
  Z.of_nat (List.length vector) <> N ->
  let r := example_record w insert_user document_name chunk_text
             (Some vector) vastdb_rowid in
  Py.get r "DocumentEmbeddingVectors01" = Some (VList vector) /\
  record_fits s r = false.
Proof.
  intros Hs HN Hlen r. split.
  - subst r. run_builder w. reflexivity.
  - apply not_true_is_false. intros Hfit. apply record_fits_spec in Hfit.
    destruct (returned_schema_shape N s Hs) as ([_ Hmax] & _).
    unfold create_ai_documents_schema in Hs.
    rewrite !create_vector_field_fixed in Hs by (split; assumption).
    cbn [Py.bind] in Hs. injection Hs as <-.
    subst r. revert Hfit. run_builder_display w. intros Hfit.
    do 18 (apply Forall2_cons_iff in Hfit; destruct Hfit as [_ Hfit]).
    apply Forall2_cons_iff in Hfit. destruct Hfit as [Hfit _].
    cbn in Hfit. apply Z.eqb_eq in Hfit. contradiction.
Qed.

(** X8.  The limit of [2^48 - 1] the documentation puts on a supplied row
    identifier is not enforced: every integer, negative or beyond the
    limit, is stored unchanged. *)
Theorem vastdb_rowid_is_not_checked
    (embedding_vector : option (list Num)) (rowid : Z) :
  Py.get (example_record w insert_user document_name chunk_text
            embedding_vector (Some rowid)) "vastdb_rowid" = Some (VInt rowid).
Proof. run_builder w. reflexivity. Qed.

(** X9.  The clock is read once, before anything else: the insert time,
    the update time and the PII detection time of a record are the same
    instant, the reading the clock gave when the call started. *)
Theorem one_timestamp_per_record
    (embedding_vector : option (list Num)) (vastdb_rowid : option Z) :
  let r := example_record w insert_user document_name chunk_text
             embedding_vector vastdb_rowid in
  let now := VDateTime (Sys.clock w (Sys.clock_reads w)) in
  Py.get r "InsertDateTime" = Some now /\
  Py.get r "UpdateDateTime" = Some now /\
  Py.get r "PIIDetectionDate" = Some now.
Proof.
  cbv zeta.
  unfold example_record, create_example_record, get_current_timestamp,
    Sys.bind, Sys.ret, Sys.datetime_now_utc.
  cbv beta iota.
  destruct (generate_uuid _) as [u w2]. cbn [fst].
  repeat split; reflexivity.
Qed.

(** X10.  The caller's texts are stored as given, the empty string
    included: the acting user is both insert and update user, and the
    document name and the chunk text are entries of their own; the record
    carries the schema version of the module. *)
Theorem inputs_are_stored_verbatim
    (embedding_vector : option (list Num)) (vastdb_rowid : option Z) :
  let r := example_record w insert_user document_name chunk_text
             embedding_vector vastdb_rowid in
  Py.get r "InsertUser" = Some (VStr insert_user) /\
  Py.get r "UpdateUser" = Some (VStr insert_user) /\
  Py.get r "SourceDocumentName" = Some (VStr document_name) /\
  Py.get r "DocumentChunkText" = Some (VStr chunk_text) /\
  Py.get r "RogersAISchemaVersion" = Some (VStr "1.0.0-tier1").
Proof. cbv zeta. run_builder w. repeat split; reflexivity. Qed.

(** X12.  A call consumes one reading of the clock and sixteen bytes of
    the random source, whatever its arguments, and the UUID of the record
    is the version-4 UUID of exactly those sixteen bytes. *)
Theorem create_example_record_effects
    (embedding_vector : option (list Num)) (vastdb_rowid : option Z) :
  let run := create_example_record insert_user document_name chunk_text
               embedding_vector vastdb_rowid w in
  snd run =
    Sys.mkWorld (Sys.clock w) (S (Sys.clock_reads w))
                (Sys.random w) (Sys.random_used w + 16) /\
  Py.get (fst run) "UUID" =
    Some (VStr (uuid.str
                  (uuid.UUID_of_bytes
                     (map (Sys.random w) (seq (Sys.random_used w) 16)) 4))).
Proof.
  cbv zeta.
  unfold create_example_record, get_current_timestamp, generate_uuid, uuid.uuid4,
    Sys.bind, Sys.ret, Sys.datetime_now_utc, Sys.urandom.
  cbv beta iota. cbn [fst snd Sys.clock Sys.clock_reads Sys.random Sys.random_used].
  split; reflexivity.
Qed.

End RecordAndSchema.

Lemma get_outside_differences (K : list string) (k : string) :
  ~ In k K ->
  forall d1 d2,
    Forall2 (fun a b => fst a = fst b /\ (snd a = snd b \/ In (fst a) K)) d1 d2 ->
    Py.get d1 k = Py.get d2 k.
Proof.
  intros Hk d1 d2 H. induction H as [| [k1 v1] [k2 v2] d1 d2 [Hf Hs] _ IH].
  - reflexivity.
  - simpl in *. subst k2. destruct (String.eqb_spec k k1) as [-> | _].
    + destruct Hs as [-> | Hin]; [reflexivity | contradiction].
    + exact IH.
Qed.

(** X11.  Apart from the UUID and the three timestamps, a record is a
    function of the arguments alone: two calls with the same arguments, at
    any two moments and states of the random source, agree on every other
    entry. *)
Theorem record_depends_on_world_only_at_world_keys
    (w1 w2 : Sys.World) (insert_user document_name chunk_text : string)
    (embedding_vector : option (list Num)) (vastdb_rowid : option Z)
    (k : string) :
  ~ In k WORLD_KEYS ->
  Py.get (example_record w1 insert_user document_name chunk_text
            embedding_vector vastdb_rowid) k =
  Py.get (example_record w2 insert_user document_name chunk_text
            embedding_vector vastdb_rowid) k.
Proof.
  intros Hk. apply (get_outside_differences WORLD_KEYS k Hk).
  unfold example_record, create_example_record, get_current_timestamp,
    Sys.bind, Sys.ret.
  cbv beta.
  destruct (Sys.datetime_now_utc w1) as [now1 w1'].
  destruct (generate_uuid w1') as [u1 w1''].
  destruct (Sys.datetime_now_utc w2) as [now2 w2'].
  destruct (generate_uuid w2') as [u2 w2''].
  cbn [fst].
  match goal with
  | |- Forall2 _ (Py.dict ?a) (Py.dict ?b) =>
      set (d1 := Py.dict a); set (d2 := Py.dict b);
      vm_compute in d1; vm_compute in d2; subst d1 d2
  end.
  repeat (apply Forall2_cons;
          [ split;
            [ reflexivity
            | first [ left; reflexivity | right; cbn; tauto ] ]
          | ]).
  apply Forall2_nil.
Qed.

Lemma example_record_conforms_to_schema_witness :
  exists s,
    create_ai_documents_schema 2 = Return s /\
    0 <= 2 /\
    (Z.of_nat (List.length [Float float_100_0; Int 1]) = 2 /\
     Forall (fun x => number_fits pa.float32 x = true) [Float float_100_0; Int 1]) /\
    - 2 ^ 63 <= 1000001 < 2 ^ 63 /\
    record_conforms s
      (example_record sample_world "pipeline" "doc.pdf" "content..."
         (Some [Float float_100_0; Int 1]) (Some 1000001)) = true.
Proof.
  assert (H1 : 0 <= 2) by discriminate.
  assert (H2 : Z.of_nat (List.length [Float float_100_0; Int 1]) = 2 /\
               Forall (fun x => number_fits pa.float32 x = true)
                      [Float float_100_0; Int 1])
    by (split; [reflexivity | repeat constructor]).
  assert (H3 : - 2 ^ 63 <= 1000001 < 2 ^ 63) by (split; [discriminate | reflexivity]).
  eexists. split; [reflexivity |].
  split; [exact H1 |]. split; [exact H2 |]. split; [exact H3 |].
  exact (example_record_conforms_to_schema sample_world "pipeline" "doc.pdf"
           "content..." 2 _ (Some [Float float_100_0; Int 1]) (Some 1000001)
           eq_refl H1 H2 H3).
Defined.

Lemma wrong_length_vector_is_stored_witness :
  exists s,
    create_ai_documents_schema 1024 = Return s /\
    0 <= 1024 /\
    Z.of_nat (List.length [Int 1; Int 2; Int 3]) <> 1024 /\
    Py.get (example_record sample_world "pipeline" "doc.pdf" "content..."
              (Some [Int 1; Int 2; Int 3]) None) "DocumentEmbeddingVectors01" =
      Some (VList [Int 1; Int 2; Int 3]) /\
    record_fits s
      (example_record sample_world "pipeline" "doc.pdf" "content..."
         (Some [Int 1; Int 2; Int 3]) None) = false.
Proof.
  assert (H1 : 0 <= 1024) by discriminate.
  assert (H2 : Z.of_nat (List.length [Int 1; Int 2; Int 3]) <> 1024) by discriminate.
  eexists. split; [reflexivity |]. split; [exact H1 |]. split; [exact H2 |].
  exact (wrong_length_vector_is_stored sample_world "pipeline" "doc.pdf" "content..."
           1024 _ [Int 1; Int 2; Int 3] None eq_refl H1 H2).
Defined.

Lemma record_depends_on_world_only_at_world_keys_witness :
  ~ In "RiskLevel" WORLD_KEYS /\
  Py.get (example_record sample_world "alice" "doc.pdf" "hello" None None)
    "RiskLevel" =
  Py.get (example_record
            (Sys.mkWorld (fun _ => 0) 7 (fun _ => xff) 3)
            "alice" "doc.pdf" "hello" None None) "RiskLevel".
Proof.
  assert (H : ~ In "RiskLevel" WORLD_KEYS).
  { cbn. intros [E | [E | [E | [E | []]]]]; discriminate E. }
  split; [exact H |].
  exact (record_depends_on_world_only_at_world_keys sample_world
           (Sys.mkWorld (fun _ => 0) 7 (fun _ => xff) 3)
           "alice" "doc.pdf" "hello" None None "RiskLevel" H).
Defined.

(* ================================================================== *)
(** * Further properties of the range validator *)
(* ================================================================== *)

Section ScoreRangeBounds.

Variable float_repr : spec_float -> string.

(** The test of the validator for finite bounds [a] and [b]. *)
Lemma finite_range_test (value min_val max_val : Num) (a b : Q) :
  Py.value min_val = Fin a ->
  Py.value max_val = Fin b ->
  Py.lt value min_val || Py.gt value max_val = false <->
  in_closed_interval a b value \/ Py.value value = NaN.
Proof.
  intros Ha Hb. unfold in_closed_interval, Py.gt.
  destruct (Py.value value) as [| | | q] eqn:E.
  - unfold Py.lt. rewrite ?E, ?Ha, ?Hb. simpl. tauto.
  - unfold Py.lt. rewrite ?E, ?Ha, ?Hb. simpl.
    split; [discriminate | intros [[] | H]; discriminate].
  - unfold Py.lt. rewrite ?E, ?Ha, ?Hb. simpl.
    split; [discriminate | intros [[] | H]; discriminate].
  - pose proof (lt_fin value min_val q a E Ha) as Hlo.
    pose proof (lt_fin max_val value b q Hb E) as Hhi.
    rewrite orb_false_iff. split.
    + intros [H1 H2]. left. split; apply Qnot_lt_le; intros H.
      * apply Hlo in H. congruence.
      * apply Hhi in H. congruence.
    + intros [[H1 H2] | H]; [| discriminate].
      split; apply not_true_is_false; intros H.
      * apply Hlo in H. exact (Qle_not_lt _ _ H1 H).
      * apply Hhi in H. exact (Qle_not_lt _ _ H2 H).
Qed.

(** X13.  With any finite bounds, ints or floats, a number other than NaN
    is returned unchanged exactly when it lies between them, both ends
    included; outside it raises. *)
Theorem validate_score_range_finite_bounds
    (value min_val max_val : Num) (field_name : string) (a b : Q) :
  Py.value min_val = Fin a ->
  Py.value max_val = Fin b ->
  Py.value value <> NaN ->
  (validate_score_range float_repr value field_name min_val max_val = Return value <->
   in_closed_interval a b value) /\
  (~ in_closed_interval a b value ->
   exists msg,
     validate_score_range float_repr value field_name min_val max_val =
     Raise (ValueError msg)).
Proof.
  intros Ha Hb Hnan.
  pose proof (finite_range_test value min_val max_val a b Ha Hb) as T.
  destruct (Py.lt value min_val || Py.gt value max_val) eqn:E.
  - assert (Hout : ~ in_closed_interval a b value).
    { intros H. assert (F : true = false) by (apply T; left; exact H).
      discriminate. }
    rewrite validate_score_range_raises by exact E.
    split; [split; [discriminate | contradiction] | eauto].
  - assert (Hin : in_closed_interval a b value).
    { destruct (proj1 T eq_refl) as [H | H]; [exact H | contradiction]. }
    rewrite validate_score_range_returns by exact E.
    split; [tauto | contradiction].
Qed.

(** X14.  A bound that is NaN switches the check off: with NaN for both
    bounds every value is returned, the infinities included. *)
Theorem nan_bounds_accept_everything
    (value min_val max_val : Num) (field_name : string) :
  Py.value min_val = NaN ->
  Py.value max_val = NaN ->
  validate_score_range float_repr value field_name min_val max_val = Return value.
Proof.
  intros Ha Hb. apply validate_score_range_returns.
  unfold Py.gt, Py.lt. rewrite Ha, Hb.
  destruct (Py.value value); reflexivity.
Qed.

(** X15.  When the lower bound is above the upper bound, every number
    other than NaN is refused. *)
Theorem inverted_bounds_reject
    (value min_val max_val : Num) (field_name : string) (a b : Q) :
  Py.value min_val = Fin a ->
  Py.value max_val = Fin b ->
  (b < a)%Q ->
  Py.value value <> NaN ->
  exists msg,
    validate_score_range float_repr value field_name min_val max_val =
    Raise (ValueError msg).
Proof.
  intros Ha Hb Hab Hnan.
  eexists. apply validate_score_range_raises.
  apply not_false_is_true. intros E.
  apply (finite_range_test value min_val max_val a b Ha Hb) in E.
  destruct E as [E | E]; [| contradiction].
  unfold in_closed_interval in E.
  destruct (Py.value value) as [| | | q]; try contradiction.
  destruct E as [H1 H2].
  apply (Qlt_irrefl a). eapply Qle_lt_trans; [| exact Hab].
  eapply Qle_trans; eassumption.
Qed.

End ScoreRangeBounds.

Lemma validate_score_range_finite_bounds_witness :
  Py.value (Int (-1)) = Fin (inject_Z (-1)) /\
  Py.value (Float float_100_0) = Fin (Qmult (inject_Z 7036874417766400) (Qpower 2 (-46))) /\
  Py.value (Int 100) <> NaN /\
  (validate_score_range (fun _ => "?") (Int 100) "Score" (Int (-1)) (Float float_100_0)
     = Return (Int 100) <->
   in_closed_interval (inject_Z (-1))
     (Qmult (inject_Z 7036874417766400) (Qpower 2 (-46))) (Int 100)).
Proof.
  assert (H3 : Py.value (Int 100) <> NaN) by discriminate.
  split; [reflexivity |]. split; [reflexivity |]. split; [exact H3 |].
  exact (proj1 (validate_score_range_finite_bounds (fun _ => "?")
                  (Int 100) (Int (-1)) (Float float_100_0) "Score"
                  _ _ eq_refl eq_refl H3)).
Defined.

Lemma nan_bounds_accept_everything_witness :
  Py.value (Float S754_nan) = NaN /\
  validate_score_range (fun _ => "?") (Float (S754_infinity false)) "Score"
    (Float S754_nan) (Float S754_nan) = Return (Float (S754_infinity false)).
Proof.
  split; [reflexivity |].
  exact (nan_bounds_accept_everything (fun _ => "?")
           (Float (S754_infinity false)) (Float S754_nan) (Float S754_nan)
           "Score" eq_refl eq_refl).
Defined.

Lemma inverted_bounds_reject_witness :
  (inject_Z 0 < inject_Z 100)%Q /\
  Py.value (Int 50) <> NaN /\
  exists msg,
    validate_score_range (fun _ => "?") (Int 50) "Score" (Int 100) (Int 0) =
    Raise (ValueError msg).
Proof.
  assert (H1 : (inject_Z 0 < inject_Z 100)%Q) by reflexivity.
  assert (H2 : Py.value (Int 50) <> NaN) by discriminate.
  split; [exact H1 |]. split; [exact H2 |].
  exact (inverted_bounds_reject (fun _ => "?") (Int 50) (Int 100) (Int 0) "Score"
           _ _ eq_refl eq_refl H1 H2).
Defined.

(* ================================================================== *)
(** * Further properties of the UUID text *)
(* ================================================================== *)

Lemma hex_digit_is_not_hyphen (c : ascii) :
  uuid.is_hex_digit c = true -> negb (Ascii.eqb c "-"%char) = true.
Proof.
  intros H. destruct (Ascii.eqb_spec c "-"%char) as [-> | _];
    [discriminate H | reflexivity].
Qed.

Lemma filter_keeps {A : Type} (P : A -> bool) (x : A) (l : list A) :
  P x = true -> filter P (x :: l) = x :: filter P l.
Proof. intros H. simpl. rewrite H. reflexivity. Qed.

Lemma filter_drops {A : Type} (P : A -> bool) (x : A) (l : list A) :
  P x = false -> filter P (x :: l) = filter P l.
Proof. intros H. simpl. rewrite H. reflexivity. Qed.

Lemma uuid_digits_of_groups (hex : list ascii) :
  List.length hex = 32%nat ->
  Forall (fun c => uuid.is_hex_digit c = true) hex ->
  uuid_digits
    (string_of_list_ascii
       (uuid.slice 0 8 hex ++ "-"%char :: uuid.slice 8 12 hex ++ "-"%char ::
        uuid.slice 12 16 hex ++ "-"%char :: uuid.slice 16 20 hex ++ "-"%char ::
        skipn 20 hex)) = hex.
Proof.
  intros Hlen Hhex. unfold uuid_digits.
  rewrite list_ascii_of_string_of_list_ascii.
  assert (Hkeep : Forall (fun c => negb (Ascii.eqb c "-"%char) = true) hex).
  { eapply Forall_impl; [| exact Hhex]. apply hex_digit_is_not_hyphen. }
  clear Hhex.
  assert (Hdrop : negb (Ascii.eqb "-"%char "-"%char) = false) by reflexivity.
  do 32 (destruct hex as [| ? hex]; [discriminate Hlen |]).
  destruct hex; [| discriminate Hlen].
  repeat match goal with
         | H : Forall _ (_ :: _) |- _ => inversion H; subst; clear H
         end.
  cbn [uuid.slice firstn skipn app Nat.sub].
  repeat first [ rewrite filter_keeps by assumption
               | rewrite filter_drops by exact Hdrop ].
  reflexivity.
Qed.

(** X16.  The text of a generated UUID loses nothing: read back as a
    hexadecimal number, its 32 digits give the 128-bit value the UUID was
    built with, so different values never share a text. *)
Theorem generate_uuid_text_round_trip (w : Sys.World) :
  uuid.hex_value (uuid_digits (fst (generate_uuid w))) =
  uuid.int (uuid.UUID_of_bytes (fst (Sys.urandom 16 w)) 4).
Proof.
  unfold generate_uuid, uuid.uuid4, Sys.bind, Sys.ret.
  pose proof (urandom_length 16 w) as Hlen.
  destruct (Sys.urandom 16 w) as [bs w1]. cbn [fst] in *.
  pose proof (UUID_of_bytes_range bs Hlen) as Hrange.
  unfold uuid.str.
  destruct (format_032x_shape _ Hrange) as [H32 Hhex].
  rewrite uuid_digits_of_groups by assumption.
  apply format_032x_value. lia.
Qed.

(* ================================================================== *)
(** * Properties of table creation *)
(* ================================================================== *)

(** Follow a program through every answer the SDK can give. *)
Ltac run_steps :=
  cbn [run Effects.bind call print lift leaving try_except
       create_table_in_transaction table_ready_lines app].

Ltac explore sdk :=
  repeat
    (run_steps;
     match goal with
     | |- context [sdk ?past ?c] =>
         let r := fresh "r" in
         let E := fresh "Hreply" in
         destruct (sdk past c) as [? | r] eqn:E;
         [ | let T := type of r in
             let T' := eval cbn in T in
             match T' with
             | option _ => destruct r
             | _ => idtac
             end ]
     end);
  run_steps.

(** Bring the events of a finished run into the form [past ++ new]. *)
Ltac split_trace :=
  rewrite <- ?app_assoc; cbn [app];
  try rewrite <- (app_nil_r _) at 1.

Section TableCreation.

Variable sdk : Sdk.
Variable past : list Event.
Variables endpoint access_key secret_key bucket_name schema_name table_name : string.

(** X17.  When the SDK is not installed, or the dimension is one the
    schema builder refuses (below [-1], or above [2^31 - 1]), the call
    raises before it prints anything or contacts the cluster: a
    [RuntimeError] when the SDK is missing; otherwise the exception of the
    schema builder, which is the [ValueError] of [pa.list_] for a dimension
    from [-2^31] to [-2] and [OverflowError] for one outside the range of
    a C [int]. *)
Theorem create_table_fails_before_connecting
    (available : bool) (vector_dims : Z) (drop_existing : bool) :
  available = false \/ vector_dims < -1 \/ 2 ^ 31 - 1 < vector_dims ->
  exists f,
    run sdk
      (create_table_in_vastdb available endpoint access_key secret_key
         bucket_name schema_name table_name vector_dims drop_existing) past =
    (past, inr f) /\
    match f with
    | RuntimeError msg =>
        available = false /\
        msg = "vastdb SDK is not installed. Install with: pip install vastdb"
    | PyError (ValueError msg) =>
        available = true /\
        - 2 ^ 31 <= vector_dims < -1 /\
        msg = "list_size should be a positive integer"
    | PyError (OverflowError _) =>
        available = true /\
        (vector_dims < - 2 ^ 31 \/ 2 ^ 31 - 1 < vector_dims)
    | SdkError _ | SystemExit _ => False
    end.
Proof.
  intros H. unfold create_table_in_vastdb.
  destruct available; cbn [negb].
  - assert (Hd : vector_dims < -1 \/ 2 ^ 31 - 1 < vector_dims)
      by (destruct H as [H | H]; [discriminate H | exact H]).
    destruct (Z.lt_ge_cases vector_dims (- 2 ^ 31)) as [Hmin | Hmin];
      [| destruct (Z.le_gt_cases vector_dims (2 ^ 31 - 1)) as [Hmax | Hmax]].
    + destruct (create_ai_documents_schema_overflows vector_dims) as [msg E];
        [left; unfold pa.INT_MIN; exact Hmin |].
      rewrite E. exists (PyError (OverflowError msg)).
      split; [reflexivity |]. split; [reflexivity | left; exact Hmin].
    + assert (E := create_ai_documents_schema_raises vector_dims).
      unfold pa.INT_MIN in E.
      assert (Hlt : vector_dims < -1) by (destruct Hd as [? | ?]; [assumption | lia]).
      specialize (E (conj Hmin Hlt)). rewrite E.
      eexists. split; [reflexivity |].
      split; [reflexivity |]. split; [split; assumption | reflexivity].
    + destruct (create_ai_documents_schema_overflows vector_dims) as [msg E];
        [right; unfold pa.INT_MAX; lia |].
      rewrite E. exists (PyError (OverflowError msg)).
      split; [reflexivity |]. split; [reflexivity | right; lia].
  - eexists. split; [reflexivity |]. split; reflexivity.
Qed.

(** X18.  Whatever the SDK answers, its methods are called in the order of
    the text, each at most once: connect, open the transaction, bucket,
    schema lookup, schema creation, table lookup, drop, table creation,
    close the transaction.  Nothing is retried. *)
Theorem sdk_calls_follow_the_text
    (available : bool) (vector_dims : Z) (drop_existing : bool) :
  exists new end_,
    run sdk
      (create_table_in_vastdb available endpoint access_key secret_key
         bucket_name schema_name table_name vector_dims drop_existing) past =
    ((past ++ new)%list, end_) /\
    increasing (map call_position (calls new)) = true.
Proof.
  unfold create_table_in_vastdb.
  destruct available; cbn [negb];
    [| exists [], (inr (RuntimeError
                         "vastdb SDK is not installed. Install with: pip install vastdb"));
       rewrite app_nil_r; split; reflexivity].
  destruct (create_ai_documents_schema vector_dims) as [s | e];
    [| exists [], (inr (PyError e)); rewrite app_nil_r; split; reflexivity].
  destruct drop_existing; explore sdk; split_trace;
    eexists; eexists; (split; [reflexivity | reflexivity]).
Qed.

(** X19.  Without [drop_existing] no table is ever dropped, and with it
    the only table that can be dropped is the one the lookup of
    [table_name] returned. *)
Theorem nothing_dropped_unless_asked
    (available : bool) (vector_dims : Z) (drop_existing : bool) :
  exists new end_,
    run sdk
      (create_table_in_vastdb available endpoint access_key secret_key
         bucket_name schema_name table_name vector_dims drop_existing) past =
    ((past ++ new)%list, end_) /\
    forall t,
      In (table_drop t) (calls new) ->
      drop_existing = true /\
      exists before schema,
        sdk (past ++ before)%list (schema_table schema table_name) =
          @returned (schema_table schema table_name) (Some t).
Proof.
  unfold create_table_in_vastdb.
  destruct available; cbn [negb];
    [| exists [], (inr (RuntimeError
                         "vastdb SDK is not installed. Install with: pip install vastdb"));
       rewrite app_nil_r; split; [reflexivity | intros t []]].
  destruct (create_ai_documents_schema vector_dims) as [s | e];
    [| exists [], (inr (PyError e)); rewrite app_nil_r;
       split; [reflexivity | intros t []]].
  destruct drop_existing; explore sdk; split_trace;
    rewrite <- ?app_assoc in *; cbn [app] in *;
    (eexists; eexists; split; [reflexivity |]);
    intros t Hin; cbn [calls flat_map app In] in Hin;
    repeat (destruct Hin as [Hin | Hin]; [try discriminate Hin |]);
    try contradiction;
    injection Hin as <-; (split; [reflexivity |]);
    match goal with
    | H : sdk _ (schema_table _ _) = returned (Some _) |- _ =>
        eexists; eexists; exact H
    end.
Qed.

(** X20.  A table that exists is left as it is when [drop_existing] is
    off: if the lookup of the table finds one, the call neither drops nor
    creates a table, and when it returns it returns [True].  The schema of
    the table that was found is not looked at. *)
Theorem existing_table_is_kept (vector_dims : Z) :
  (forall before schema name,
     exists t, sdk before (schema_table schema name) =
               @returned (schema_table schema name) (Some t)) ->
  exists new end_,
    run sdk
      (create_table_in_vastdb true endpoint access_key secret_key
         bucket_name schema_name table_name vector_dims false) past =
    ((past ++ new)%list, end_) /\
    Forall (fun c => match c with
                     | table_drop _ | schema_create_table _ _ _ => False
                     | _ => True
                     end) (calls new) /\
    (forall b, end_ = inl b -> b = true).
Proof.
  intros Hfound. unfold create_table_in_vastdb. cbn [negb].
  destruct (create_ai_documents_schema vector_dims) as [s | e];
    [| exists [], (inr (PyError e)); rewrite app_nil_r;
       split; [reflexivity | split; [constructor | discriminate]]].
  explore sdk;
    try match goal with
        | H : sdk ?b (schema_table ?h ?n) = _ |- _ =>
            destruct (Hfound b h n) as [t Ht]; rewrite Ht in H; discriminate H
        end;
    split_trace;
    (eexists; eexists; split; [reflexivity |]);
    (split; [cbn [calls flat_map app]; repeat constructor
            | intros b Hb; congruence]).
Qed.

(** X21.  The only table ever created has the requested name and the
    schema [create_ai_documents_schema] builds for the requested
    dimension. *)
Theorem created_table_has_the_built_schema
    (available : bool) (vector_dims : Z) (drop_existing : bool) :
  exists new end_,
    run sdk
      (create_table_in_vastdb available endpoint access_key secret_key
         bucket_name schema_name table_name vector_dims drop_existing) past =
    ((past ++ new)%list, end_) /\
    forall schema name arrow_schema,
      In (schema_create_table schema name arrow_schema) (calls new) ->
      name = table_name /\
      create_ai_documents_schema vector_dims = Return arrow_schema.
Proof.
  unfold create_table_in_vastdb.
  destruct available; cbn [negb];
    [| exists [], (inr (RuntimeError
                         "vastdb SDK is not installed. Install with: pip install vastdb"));
       rewrite app_nil_r; split; [reflexivity | intros ? ? ? []]].
  destruct (create_ai_documents_schema vector_dims) as [s | e];
    [| exists [], (inr (PyError e)); rewrite app_nil_r;
       split; [reflexivity | intros ? ? ? []]].
  destruct drop_existing; explore sdk; split_trace;
    (eexists; eexists; split; [reflexivity |]);
    intros ? ? ? Hin; cbn [calls flat_map app In] in Hin;
    repeat (destruct Hin as [Hin | Hin]; [try discriminate Hin |]);
    try contradiction;
    injection Hin as <- <- <-; split; reflexivity.
Qed.

(** X22.  The call returns [False] only if the SDK's table creation hands
    back nothing: with an SDK whose [create_table] always gives a table or
    raises, the call returns [True] or raises. *)
Theorem false_only_without_a_table
    (available : bool) (vector_dims : Z) (drop_existing : bool) :
  (forall before schema name arrow_schema,
     sdk before (schema_create_table schema name arrow_schema) <>
     @returned (schema_create_table schema name arrow_schema) None) ->
  snd (run sdk
         (create_table_in_vastdb available endpoint access_key secret_key
            bucket_name schema_name table_name vector_dims drop_existing) past)
  <> inl false.
Proof.
  intros Hcreates. unfold create_table_in_vastdb.
  destruct available; cbn [negb]; [| discriminate].
  destruct (create_ai_documents_schema vector_dims) as [s | e];
    [| discriminate].
  destruct drop_existing; explore sdk;
    try match goal with
        | H : sdk ?b (schema_create_table ?h ?n ?a) = returned None |- _ =>
            exfalso; exact (Hcreates b h n a H)
        end;
    cbn [snd]; discriminate.
Qed.

(** X23.  Once the transaction is open it is closed again, as the last
    thing the call does with the SDK, whether the block ended normally or
    by an exception; and when the call returns a value the transaction
    was closed as successful. *)
Theorem transaction_is_always_closed
    (available : bool) (vector_dims : Z) (drop_existing : bool) :
  exists new end_,
    run sdk
      (create_table_in_vastdb available endpoint access_key secret_key
         bucket_name schema_name table_name vector_dims drop_existing) past =
    ((past ++ new)%list, end_) /\
    forall tx name,
      In (tx_bucket tx name) (calls new) ->
      exists failed,
        last (calls new) (tx_bucket tx name) = transaction_exit tx failed /\
        (forall b, end_ = inl b -> failed = false).
Proof.
  unfold create_table_in_vastdb.
  destruct available; cbn [negb];
    [| exists [], (inr (RuntimeError
                         "vastdb SDK is not installed. Install with: pip install vastdb"));
       rewrite app_nil_r; split; [reflexivity | intros ? ? []]].
  destruct (create_ai_documents_schema vector_dims) as [s | e];
    [| exists [], (inr (PyError e)); rewrite app_nil_r;
       split; [reflexivity | intros ? ? []]].
  destruct drop_existing; explore sdk; split_trace;
    (eexists; eexists; split; [reflexivity |]);
    intros ? ? Hin; cbn [calls flat_map app In] in Hin;
    repeat (destruct Hin as [Hin | Hin]; [try discriminate Hin |]);
    try contradiction;
    injection Hin as <- <-;
    eexists; (split; [reflexivity | intros b Hb; congruence]).
Qed.

End TableCreation.

Lemma create_table_fails_before_connecting_witness :
  (true = false \/ 2 ^ 31 < -1 \/ 2 ^ 31 - 1 < 2 ^ 31) /\
  exists f,
    run (sdk_with_everything 7%nat)
      (create_table_in_vastdb true "localhost" "key" "secret" "octo-db"
         "rogers_ai_schema" TABLE_NAME (2 ^ 31) false) [] =
    ([], inr f) /\
    match f with
    | RuntimeError msg =>
        true = false /\
        msg = "vastdb SDK is not installed. Install with: pip install vastdb"
    | PyError (ValueError msg) =>
        true = true /\
        - 2 ^ 31 <= 2 ^ 31 < -1 /\
        msg = "list_size should be a positive integer"
    | PyError (OverflowError _) =>
        true = true /\ (2 ^ 31 < - 2 ^ 31 \/ 2 ^ 31 - 1 < 2 ^ 31)
    | SdkError _ | SystemExit _ => False
    end.
Proof.
  assert (H : true = false \/ 2 ^ 31 < -1 \/ 2 ^ 31 - 1 < 2 ^ 31)
    by (right; right; reflexivity).
  split; [exact H |].
  exact (create_table_fails_before_connecting (sdk_with_everything 7%nat) []
           "localhost" "key" "secret" "octo-db" "rogers_ai_schema" TABLE_NAME
           true (2 ^ 31) false H).
Defined.

Lemma existing_table_is_kept_witness :
  (forall before schema name,
     exists t, sdk_with_everything 7%nat before (schema_table schema name) =
               @returned (schema_table schema name) (Some t)) /\
  exists new end_,
    run (sdk_with_everything 7%nat)
      (create_table_in_vastdb true "localhost" "key" "secret" "octo-db"
         "rogers_ai_schema" TABLE_NAME 1024 false) [] =
    (([] ++ new)%list, end_) /\
    Forall (fun c => match c with
                     | table_drop _ | schema_create_table _ _ _ => False
                     | _ => True
                     end) (calls new) /\
    (forall b, end_ = inl b -> b = true).
Proof.
  assert (H : forall before schema name,
             exists t, sdk_with_everything 7%nat before (schema_table schema name) =
                       @returned (schema_table schema name) (Some t))
    by (intros; exists 7%nat; reflexivity).
  split; [exact H |].
  exact (existing_table_is_kept (sdk_with_everything 7%nat) []
           "localhost" "key" "secret" "octo-db" "rogers_ai_schema" TABLE_NAME
           1024 H).
Defined.

Lemma false_only_without_a_table_witness :
  (forall before schema name arrow_schema,
     sdk_with_everything 7%nat before (schema_create_table schema name arrow_schema) <>
     @returned (schema_create_table schema name arrow_schema) None) /\
  snd (run (sdk_with_everything 7%nat)
         (create_table_in_vastdb true "localhost" "key" "secret" "octo-db"
            "rogers_ai_schema" TABLE_NAME 1024 true) [])
  <> inl false.
Proof.
  assert (H : forall before schema name arrow_schema,
             sdk_with_everything 7%nat before
               (schema_create_table schema name arrow_schema) <>
             @returned (schema_create_table schema name arrow_schema) None)
    by (intros; discriminate).
  split; [exact H |].
  exact (false_only_without_a_table (sdk_with_everything 7%nat) []
           "localhost" "key" "secret" "octo-db" "rogers_ai_schema" TABLE_NAME
           true 1024 true H).
Defined.

(* ================================================================== *)
(** * Properties of the schema listing and of the command line *)
(* ================================================================== *)

Lemma run_bind {A B : Type} (sdk : Sdk) (p : Prog A) (f : A -> Prog B) :
  forall past,
    run sdk (Effects.bind p f) past =
    match run sdk p past with
    | (t, inl a) => run sdk (f a) t
    | (t, inr x) => (t, inr x)
    end.
Proof.
  induction p as [a | x | line k IH | c k IH]; intros past; cbn [run Effects.bind].
  - reflexivity.
  - reflexivity.
  - apply IH.
  - apply IH.
Qed.


Lemma run_for_each_print {A : Type} (sdk : Sdk) (line : A -> string) (l : list A) :
  forall past,
    run sdk (for_each l (fun x => print (line x))) past =
    ((past ++ map (fun x => printed (line x)) l)%list, inl tt).
Proof.
  induction l as [| x l IH]; intros past; cbn [for_each map].
  - cbn [run]. rewrite app_nil_r. reflexivity.
  - cbn [print Effects.bind run]. rewrite IH, <- app_assoc. reflexivity.
Qed.

Lemma calls_of_prints (lines : list string) : calls (map printed lines) = [].
Proof. induction lines as [| l lines IH]; [reflexivity | exact IH]. Qed.

Lemma ends_with_after (a line suffix : string) :
  ends_with line suffix -> ends_with (a ++ line) suffix.
Proof.
  intros [front E]. exists (a ++ front). rewrite E. symmetry. apply append_assoc.
Qed.

Lemma enumerate_length {A : Type} (l : list A) :
  List.length (enumerate l) = List.length l.
Proof.
  unfold enumerate. rewrite length_combine, length_seq. apply Nat.min_id.
Qed.

Lemma enumerate_In {A : Type} (l : list A) (i : nat) (x : A) :
  In (i, x) (enumerate l) -> In x l.
Proof. unfold enumerate. apply in_combine_r. Qed.

Section CommandLineProperties.

Variable type_str : pa.DataType -> string.
Variable VECTOR_SEARCH_EXAMPLES : string.
Variable cfg : Config.

(** What the listing prints once the schema is built. *)
Lemma print_schema_info_lines
    (sdk : Sdk) (N : Z) (s : pa.Schema) (past : list Event) :
  create_ai_documents_schema N = Return s ->
  run sdk (print_schema_info type_str N) past =
  (List.app past
     (map printed
        (List.app
           (List.app
              [nl ++ str_repeat "=" 70;
               "Rogers-AI-Schema v1.0.0-tier1 - VASTDB Implementation";
               str_repeat "=" 70;
               nl ++ "Total fields: " ++ str_int (Z.of_nat (List.length s));
               "Vector dimensions: " ++ str_int N;
               nl ++ "Field Groups:";
               str_repeat "-" 40]
           (List.app
              (map (fun group =>
                      "  " ++ fst group ++ ": " ++ str_int (snd group) ++ " fields")
                   print_schema_info_groups)
              [nl ++ str_repeat "-" 40; "Schema Fields:"; str_repeat "-" 40]))
        (List.app
           (map (fun entry =>
                   "  " ++ rjust 2 (str_int (Z.of_nat (fst entry) + 1)) ++ ". " ++
                   pa.name (snd entry) ++ ": " ++ type_str (pa.type (snd entry)) ++
                   " (" ++
                   (if pa.nullable (snd entry) then "NULL" else "NOT NULL") ++
                   ")")
                (enumerate s))
           [nl ++ str_repeat "=" 70]))),
   inl tt).
Proof.
  intros Hs. unfold print_schema_info. rewrite Hs.
  cbn [lift Effects.bind print run].
  rewrite run_bind, run_for_each_print.
  cbn [Effects.bind print run].
  rewrite run_bind, run_for_each_print.
  cbn [Effects.bind print run].
  rewrite !map_app, !map_map, <- !app_assoc. cbn [map app]. reflexivity.
Qed.

(** X24.  The listing prints and does nothing else.  For a dimension the
    schema builder accepts (from [-1] to [2^31 - 1]) it reports 65 as the
    total, lists 65 fields, every one of them marked NULL, and ends
    normally.  For any other dimension it raises the schema builder's
    exception before printing a line: the [ValueError] of [pa.list_] from
    [-2^31] to [-2], and [OverflowError] outside the range of a C [int]. *)
Theorem print_schema_info_reports_65_nullable_fields
    (sdk : Sdk) (N : Z) (past : list Event) :
  if (-1 <=? N) && (N <=? 2 ^ 31 - 1) then
    exists head fields foot,
      run sdk (print_schema_info type_str N) past =
        ((past ++ map printed (head ++ fields ++ [foot]))%list, inl tt) /\
      In (nl ++ "Total fields: 65") head /\
      List.length fields = 65%nat /\
      Forall (fun line => ends_with line " (NULL)") fields
  else
    exists e,
      create_ai_documents_schema N = Raise e /\
      run sdk (print_schema_info type_str N) past = (past, inr (PyError e)) /\
      match e with
      | ValueError msg =>
          - 2 ^ 31 <= N < -1 /\ msg = "list_size should be a positive integer"
      | OverflowError _ => N < - 2 ^ 31 \/ 2 ^ 31 - 1 < N
      end.
Proof.
  destruct (Z.leb_spec (-1) N) as [Hlo | Hlo];
    [destruct (Z.leb_spec N (2 ^ 31 - 1)) as [Hhi | Hhi] |]; cbn [andb].
  - assert (Hs : exists s, create_ai_documents_schema N = Return s).
    { destruct (Z.eq_dec N (-1)) as [-> | Hne].
      - destruct schema_for_minus_one as (s & Hs & _). eauto.
      - destruct (create_ai_documents_schema_returns N) as (s & Hs & _);
          [unfold pa.INT_MAX; lia | eauto]. }
    destruct Hs as [s Hs].
    destruct (returned_schema_shape N s Hs) as (_ & Hlen & _ & _ & Hnull).
    rewrite (print_schema_info_lines sdk N s past Hs).
    eexists _, _, _. split; [reflexivity |].
    split; [| split].
      * rewrite Hlen. cbn. tauto.
      * rewrite length_map, enumerate_length. exact Hlen.
      * apply Forall_forall. intros line Hline.
        apply in_map_iff in Hline. destruct Hline as ([i f] & <- & Hin).
        apply enumerate_In in Hin.
        rewrite Forall_forall in Hnull. cbn [fst snd]. rewrite (Hnull f Hin).
        do 6 apply ends_with_after.
        exists EmptyString. reflexivity.
  - destruct (create_ai_documents_schema_overflows N) as [msg E];
      [right; unfold pa.INT_MAX; lia |].
    exists (OverflowError msg). split; [exact E |].
    split; [unfold print_schema_info; rewrite E; reflexivity |].
    right. exact Hhi.
  - destruct (Z.lt_ge_cases N (- 2 ^ 31)) as [Hmin | Hmin].
    + destruct (create_ai_documents_schema_overflows N) as [msg E];
        [left; unfold pa.INT_MIN; exact Hmin |].
      exists (OverflowError msg). split; [exact E |].
      split; [unfold print_schema_info; rewrite E; reflexivity |].
      left. exact Hmin.
    + assert (E := create_ai_documents_schema_raises N).
      unfold pa.INT_MIN in E. specialize (E (conj Hmin Hlo)).
      eexists. split; [exact E |].
      split; [unfold print_schema_info; rewrite E; reflexivity |].
      split; [split; assumption | reflexivity].
Qed.

(** The listing only prints, whatever the dimension, and the only way
    it fails is the schema builder's error. *)
Lemma print_schema_info_only_prints (N : Z) (past : list Event) :
  exists lines end_,
    (end_ = inl tt \/ exists e, end_ = inr (PyError e)) /\
    forall sdk,
      run sdk (print_schema_info type_str N) past =
      ((past ++ map printed lines)%list, end_).
Proof.
  destruct (create_ai_documents_schema N) as [s | e] eqn:Hs.
  - eexists. exists (inl tt). split; [left; reflexivity |]. intros sdk.
    apply (print_schema_info_lines sdk N s past Hs).
  - exists [], (inr (PyError e)). split; [right; eauto |]. intros sdk.
    unfold print_schema_info. rewrite Hs. cbn [lift Effects.bind run map].
    rewrite app_nil_r. reflexivity.
Qed.

(** The two printing steps that come before table creation. *)
Lemma main_prelude (show_info show_examples : bool) (N : Z) (past : list Event) :
  exists lines end_,
    (end_ = inl tt \/ exists e, end_ = inr (PyError e)) /\
    forall (sdk : Sdk) (rest : Prog unit),
      run sdk
        ((if show_info then print_schema_info type_str N else Ret tt) ;;;
         (if show_examples then print VECTOR_SEARCH_EXAMPLES else Ret tt) ;;;
         rest) past =
      match end_ with
      | inl _ => run sdk rest (past ++ map printed lines)%list
      | inr x => ((past ++ map printed lines)%list, inr x)
      end.
Proof.
  destruct show_info.
  - destruct (print_schema_info_only_prints N past) as (l1 & e1 & He1 & H1).
    destruct He1 as [-> | [e ->]].
    + exists (l1 ++ if show_examples then [VECTOR_SEARCH_EXAMPLES] else [])%list,
        (inl tt).
      split; [left; reflexivity |]. intros sdk rest.
      rewrite run_bind, H1.
      destruct show_examples; cbn [Effects.bind print run];
        rewrite map_app, app_assoc; cbn [map]; rewrite ?app_nil_r; reflexivity.
    + exists l1, (inr (PyError e)). split; [right; eauto |]. intros sdk rest.
      rewrite run_bind, H1. reflexivity.
  - exists (if show_examples then [VECTOR_SEARCH_EXAMPLES] else []), (inl tt).
    split; [left; reflexivity |]. intros sdk rest.
    destruct show_examples; cbn [Effects.bind print run map];
      rewrite ?app_nil_r; reflexivity.
Qed.

Lemma prints_then_prints (past : list Event) (l1 l2 : list string) :
  ((past ++ map printed l1) ++ map printed l2)%list =
  (past ++ map printed (l1 ++ l2))%list.
Proof. rewrite map_app, app_assoc. reflexivity. Qed.

(** X25.  With [--create] but an empty access key or secret key, the run
    prints its messages and ends with exit status 1 without a single call
    to the SDK. *)
Theorem main_needs_credentials (sdk : Sdk) (args : Args) (past : list Event) :
  create args = true ->
  str_truthy (VAST_ACCESS_KEY cfg) = false \/
  str_truthy (VAST_SECRET_KEY cfg) = false ->
  exists lines end_,
    run sdk (main type_str VECTOR_SEARCH_EXAMPLES cfg args) past =
      ((past ++ map printed lines)%list, end_) /\
    exit_status end_ = 1.
Proof.
  intros Hcreate Hkeys. unfold main. rewrite Hcreate.
  destruct (main_prelude (info args || (negb true && negb (examples args)))
              (examples args) (dims args) past)
    as (l1 & e1 & He1 & H1).
  rewrite H1. destruct He1 as [-> | [e ->]].
  - assert (Hk : negb (str_truthy (VAST_ACCESS_KEY cfg)) ||
                 negb (str_truthy (VAST_SECRET_KEY cfg)) = true).
    { destruct Hkeys as [-> | ->]; [reflexivity | apply orb_true_r]. }
    rewrite Hk. cbn [Effects.bind print run].
    rewrite <- !app_assoc. cbn [app].
    eexists (l1 ++ [_; _; _; _; _])%list, _.
    split; [rewrite map_app; reflexivity | reflexivity].
  - exists l1, (inr (PyError e)). split; reflexivity.
Qed.

(** X26.  Without [--create] the run only prints: it makes no SDK call,
    and what it prints and how it ends depend neither on the SDK nor on
    [--drop], which is ignored without a word. *)
Theorem without_create_nothing_touches_the_cluster
    (show_info show_examples : bool) (N : Z) (past : list Event) :
  exists lines end_,
    forall (sdk : Sdk) (drop_flag : bool),
      run sdk
        (main type_str VECTOR_SEARCH_EXAMPLES cfg
           (mkArgs show_info false drop_flag N show_examples)) past =
      ((past ++ map printed lines)%list, end_).
Proof.
  destruct (main_prelude (show_info || (negb false && negb show_examples))
              show_examples N past)
    as (l1 & e1 & He1 & H1).
  exists l1, e1. intros sdk drop_flag.
  unfold main. cbn [info create drop dims examples].
  rewrite H1. destruct He1 as [-> | [e ->]]; reflexivity.
Qed.

End CommandLineProperties.


Section CreateFromCommandLine.

Variable type_str : pa.DataType -> string.
Variable VECTOR_SEARCH_EXAMPLES : string.
Variable cfg : Config.


End CreateFromCommandLine.

Lemma main_needs_credentials_witness :
  create (mkArgs false true false 1024 false) = true /\
  (str_truthy (VAST_ACCESS_KEY
                 (mkConfig "localhost" EmptyString EmptyString "octo-db"
                    "rogers_ai_schema" 1024 true)) = false \/
   str_truthy (VAST_SECRET_KEY
                 (mkConfig "localhost" EmptyString EmptyString "octo-db"
                    "rogers_ai_schema" 1024 true)) = false) /\
  exists lines end_,
    run (sdk_with_everything 7%nat)
      (main (fun _ => "?") "-- examples"
         (mkConfig "localhost" EmptyString EmptyString "octo-db"
            "rogers_ai_schema" 1024 true)
         (mkArgs false true false 1024 false)) [] =
      (([] ++ map printed lines)%list, end_) /\
    exit_status end_ = 1.
Proof.
  assert (H1 : create (mkArgs false true false 1024 false) = true) by reflexivity.
  assert (H2 : str_truthy (VAST_ACCESS_KEY
                 (mkConfig "localhost" EmptyString EmptyString "octo-db"
                    "rogers_ai_schema" 1024 true)) = false \/
               str_truthy (VAST_SECRET_KEY
                 (mkConfig "localhost" EmptyString EmptyString "octo-db"
                    "rogers_ai_schema" 1024 true)) = false)
    by (left; reflexivity).
  split; [exact H1 |]. split; [exact H2 |].
  exact (main_needs_credentials (fun _ => "?") "-- examples" _
           (sdk_with_everything 7%nat) (mkArgs false true false 1024 false) []
           H1 H2).
Defined.


(* ================================================================== *)
(** * Version and variant of a generated UUID *)
(* ================================================================== *)

Lemma hex_digit_value (c : ascii) :
  uuid.is_hex_digit c = true ->
  0 <= uuid.digit_value c < 16 /\ hex_char (uuid.digit_value c) = c.
Proof.
  destruct c as [b0 b1 b2 b3 b4 b5 b6 b7].
  destruct b0, b1, b2, b3, b4, b5, b6, b7; intros H;
    try (vm_compute in H; discriminate H);
    vm_compute; (split; [split; [discriminate | reflexivity] | reflexivity]).
Qed.

Lemma hex_value_app (a b : list ascii) :
  uuid.hex_value (a ++ b) =
  uuid.hex_value a * 16 ^ Z.of_nat (List.length b) + uuid.hex_value b.
Proof.
  unfold uuid.hex_value at 1. rewrite fold_left_app, hex_fold_shift. reflexivity.
Qed.

Lemma hex_value_bound (l : list ascii) :
  Forall (fun c => uuid.is_hex_digit c = true) l ->
  0 <= uuid.hex_value l < 16 ^ Z.of_nat (List.length l).
Proof.
  induction 1 as [| c l Hc _ IH].
  - cbn. lia.
  - assert (E : uuid.hex_value (c :: l) =
                uuid.digit_value c * 16 ^ Z.of_nat (List.length l) +
                uuid.hex_value l).
    { change (c :: l) with ([c] ++ l)%list. rewrite hex_value_app.
      change (uuid.hex_value [c]) with (0 * 16 + uuid.digit_value c). ring. }
    rewrite E. clear E.
    destruct (hex_digit_value c Hc) as [Hd _].
    cbn [List.length].
    replace (Z.of_nat (S (List.length l))) with (Z.succ (Z.of_nat (List.length l)))
      by lia.
    rewrite Z.pow_succ_r by lia.
    assert (0 < 16 ^ Z.of_nat (List.length l)) by (apply Z.pow_pos_nonneg; lia).
    nia.
Qed.

(** The digit [c] of a hexadecimal text is the corresponding nibble of the
    number the text denotes. *)
Lemma hex_value_digit (front back : list ascii) (c : ascii) :
  uuid.is_hex_digit c = true ->
  Forall (fun c => uuid.is_hex_digit c = true) back ->
  (uuid.hex_value (front ++ c :: back) / 16 ^ Z.of_nat (List.length back)) mod 16 =
  uuid.digit_value c.
Proof.
  intros Hc Hback.
  destruct (hex_digit_value c Hc) as [Hd _].
  pose proof (hex_value_bound back Hback) as Hb.
  change (c :: back) with ([c] ++ back)%list.
  rewrite app_assoc, hex_value_app, hex_value_app.
  change (uuid.hex_value [c]) with (0 * 16 + uuid.digit_value c).
  change (Z.of_nat (List.length [c])) with 1. rewrite Z.pow_1_r.
  set (p := 16 ^ Z.of_nat (List.length back)) in *.
  set (f := uuid.hex_value front).
  set (d := uuid.digit_value c) in *.
  set (b := uuid.hex_value back) in *.
  assert (Hp : 0 < p) by (apply Z.pow_pos_nonneg; lia).
  replace ((f * 16 + (0 * 16 + d)) * p + b) with (b + (f * 16 + d) * p) by ring.
  rewrite Z.div_add by lia. rewrite (Z.div_small b p) by lia.
  rewrite Z.add_0_l, Z.add_comm, Z.mod_add by lia.
  apply Z.mod_small. lia.
Qed.

Lemma nibble_as_bits (n k : Z) :
  0 <= k ->
  (n / 16 ^ k) mod 16 = Z.land (Z.shiftr n (4 * k)) (Z.ones 4).
Proof.
  intros Hk. rewrite Z.land_ones by lia. rewrite Z.shiftr_div_pow2 by lia.
  replace (2 ^ (4 * k)) with (16 ^ k)
    by (change 16 with (2 ^ 4); rewrite <- Z.pow_mul_r by lia; reflexivity).
  reflexivity.
Qed.

(** Bits 76 to 79 of a version-4 UUID spell 4. *)
Lemma version_nibble (bs : list Byte.byte) :
  (uuid.int (uuid.UUID_of_bytes bs 4) / 16 ^ 19) mod 16 = 4.
Proof.
  rewrite nibble_as_bits by lia. unfold uuid.UUID_of_bytes. cbn [uuid.int].
  apply Z.bits_inj'. intros i Hi.
  rewrite Z.land_spec, Z.shiftr_spec by lia.
  rewrite Z.lor_spec, Z.land_spec, Z.lnot_spec by lia.
  destruct (Z.lt_ge_cases i 4) as [Hlt | Hge].
  - assert (C : i = 0 \/ i = 1 \/ i = 2 \/ i = 3) by lia.
    destruct C as [-> | [-> | [-> | ->]]];
      cbn [Z.add Z.mul Pos.add Pos.mul Pos.succ];
      match goal with
      | |- context [Z.testbit (Z.shiftl 61440 64) ?k] =>
          change (Z.testbit (Z.shiftl 61440 64) k) with true
      end;
      rewrite andb_false_r; reflexivity.
  - rewrite Z.ones_spec_high by lia. rewrite andb_false_r.
    symmetry. apply (high_bits_clear 4 3 i); lia.
Qed.

(** Bits 62 and 63 of a version-4 UUID are 0 and 1. *)
Lemma variant_nibble (bs : list Byte.byte) :
  8 <= (uuid.int (uuid.UUID_of_bytes bs 4) / 16 ^ 15) mod 16 <= 11.
Proof.
  rewrite nibble_as_bits by lia. unfold uuid.UUID_of_bytes. cbn [uuid.int].
  set (n := Z.land (Z.shiftr _ _) (Z.ones 4)).
  assert (Hrange : 0 <= n < 16).
  { subst n. rewrite Z.land_ones by lia. apply Z.mod_pos_bound. lia. }
  assert (H3 : Z.testbit n 3 = true).
  { subst n. rewrite Z.land_spec, Z.shiftr_spec by lia.
    rewrite Z.lor_spec, Z.land_spec, Z.lor_spec by lia.
    change (Z.testbit (Z.shiftl 32768 48) (3 + 4 * 15)) with true.
    change (Z.testbit (Z.lnot (Z.shiftl 61440 64)) (3 + 4 * 15)) with true.
    rewrite orb_true_r. reflexivity. }
  assert (H2 : Z.testbit n 2 = false).
  { subst n. rewrite Z.land_spec, Z.shiftr_spec by lia.
    rewrite Z.lor_spec, Z.land_spec, Z.lor_spec, Z.land_spec by lia.
    change (Z.testbit (Z.shiftl 32768 48) (2 + 4 * 15)) with false.
    change (Z.testbit (Z.lnot (Z.shiftl 49152 48)) (2 + 4 * 15)) with false.
    change (Z.testbit (Z.shiftl 4 76) (2 + 4 * 15)) with false.
    rewrite andb_false_r. reflexivity. }
  apply Z.testbit_true in H3; [| lia]. apply Z.testbit_false in H2; [| lia].
  clearbody n. change (2 ^ 3) with 8 in H3. change (2 ^ 2) with 4 in H2.
  Z.div_mod_to_equations. lia.
Qed.

(** X28.  Every UUID [generate_uuid] returns is a version-4 UUID of the
    RFC 4122 variant: in its text the character at offset 14 is '4' and
    the character at offset 19 is one of '8', '9', 'a', 'b'. *)
Theorem generate_uuid_version_and_variant (w : Sys.World) :
  String.get 14 (fst (generate_uuid w)) = Some "4"%char /\
  exists c,
    String.get 19 (fst (generate_uuid w)) = Some c /\
    In c ["8"; "9"; "a"; "b"]%char.
Proof.
  unfold generate_uuid, uuid.uuid4, Sys.bind, Sys.ret.
  pose proof (urandom_length 16 w) as Hlen.
  destruct (Sys.urandom 16 w) as [bs w1]. cbn [fst] in *.
  pose proof (UUID_of_bytes_range bs Hlen) as Hrange.
  pose proof (version_nibble bs) as Hversion.
  pose proof (variant_nibble bs) as Hvariant.
  unfold uuid.str.
  destruct (format_032x_shape _ Hrange) as [H32 Hhex].
  pose proof (format_032x_value (uuid.int (uuid.UUID_of_bytes bs 4))
                (proj1 Hrange)) as Hvalue.
  rewrite <- Hvalue in Hversion, Hvariant. clear Hvalue.
  revert H32 Hhex Hversion Hvariant.
  generalize (uuid.format_032x (uuid.int (uuid.UUID_of_bytes bs 4))).
  intros hex H32 Hhex Hversion Hvariant.
  do 32 (destruct hex as [| ? hex]; [discriminate H32 |]).
  destruct hex; [| discriminate H32].
  repeat match goal with
         | H : Forall _ (_ :: _) |- _ => inversion H; subst; clear H
         end.
  cbn [uuid.slice firstn skipn app Nat.sub string_of_list_ascii String.get].
  match goal with
  | |- Some ?c12 = _ /\ (exists c, Some ?c16 = _ /\ _) =>
      match goal with
      | H : uuid.hex_value ?l / _ mod 16 = 4 |- _ =>
          match l with
          | ?a0 :: ?a1 :: ?a2 :: ?a3 :: ?a4 :: ?a5 :: ?a6 :: ?a7 :: ?a8 :: ?a9 ::
            ?a10 :: ?a11 :: c12 :: ?back =>
              change l with
                ([a0; a1; a2; a3; a4; a5; a6; a7; a8; a9; a10; a11] ++ c12 :: back)%list
                in H;
              change 19 with (Z.of_nat (List.length back)) in H;
              rewrite hex_value_digit in H by (try assumption; repeat (constructor; try assumption))
          end
      end;
      match goal with
      | H : _ <= uuid.hex_value ?l / _ mod 16 <= _ |- _ =>
          match l with
          | ?a0 :: ?a1 :: ?a2 :: ?a3 :: ?a4 :: ?a5 :: ?a6 :: ?a7 :: ?a8 :: ?a9 ::
            ?a10 :: ?a11 :: ?a12 :: ?a13 :: ?a14 :: ?a15 :: c16 :: ?back =>
              change l with
                ([a0; a1; a2; a3; a4; a5; a6; a7; a8; a9; a10; a11; a12; a13;
                  a14; a15] ++ c16 :: back)%list in H;
              change 15 with (Z.of_nat (List.length back)) in H;
              rewrite hex_value_digit in H by (try assumption; repeat (constructor; try assumption))
          end
      end
  end.
  match goal with
  | H12 : uuid.digit_value ?c12 = 4, H16 : 8 <= uuid.digit_value ?c16 <= 11 |- _ =>
      let Hc12 := fresh in let Hc16 := fresh in
      assert (Hc12 : uuid.is_hex_digit c12 = true) by assumption;
      assert (Hc16 : uuid.is_hex_digit c16 = true) by assumption;
      destruct (hex_digit_value c12 Hc12) as [_ E12];
      destruct (hex_digit_value c16 Hc16) as [_ E16];
      rewrite H12 in E12; split;
      [ rewrite <- E12; reflexivity
      | exists c16; split; [reflexivity |];
        rewrite <- E16;
        assert (C : uuid.digit_value c16 = 8 \/ uuid.digit_value c16 = 9 \/
                    uuid.digit_value c16 = 10 \/ uuid.digit_value c16 = 11) by lia;
        destruct C as [-> | [-> | [-> | ->]]]; cbn; tauto ]
  end.
Qed.
